(** * pocketbase.client: the request dispatcher of the PocketBase Python SDK

  A shallow embedding of [src/pocketbase/client.py] (class [Client]):
  [build_url], [_send], [send_raw], [send] and [collection].

  Python objects live in a heap indexed by locations, so that a dict the
  caller still holds and a dict the dispatcher updates are the same object
  when the source aliases them.  Python exceptions are results of a small
  state-and-exception monad. *)

From stdpp Require Import base option list gmap strings.
From Stdlib Require Import ZArith Ascii String DecimalString.

Open Scope string_scope.
Set Warnings "-register-all".

(** ** Python strings *)

(** [str] is modelled by its UTF-8 bytes.  The only character the source
  inspects is "/" (one byte, never part of a longer UTF-8 sequence), so
  [startswith], [endswith] and the slice [path[1:]] agree with Python's
  code-point versions. *)

Module Str.

(** [s.startswith(p)] *)
Definition startswith (s p : string) : bool := String.prefix p s.

(** [s.endswith(p)]: some suffix of [s] is [p]. *)
Fixpoint endswith (s p : string) : bool :=
  if String.eqb s p then true
  else match s with
       | EmptyString => false
       | String _ t => endswith t p
       end.

(** [s[1:]] *)
Definition slice1 (s : string) : string :=
  match s with
  | EmptyString => EmptyString
  | String _ t => t
  end.

(** [p in s] for two strings: [p] occurs in [s]. *)
Fixpoint contains (s p : string) : bool :=
  if String.prefix p s then true
  else match s with
       | EmptyString => false
       | String _ t => contains t p
       end.

(** [str(n)] for an int. *)
Definition of_int (n : Z) : string := NilZero.string_of_int (Z.to_int n).

End Str.

(** ** Python dicts: insertion-ordered association lists with unique keys *)

Module Dict.

Definition t (V : Type) : Type := list (string * V).

Section Ops.
Context {V : Type}.

Definition keys (d : t V) : list string := d.*1.

(** [d.get(k)], [None] when the key is absent. *)
Fixpoint get (d : t V) (k : string) : option V :=
  match d with
  | [] => None
  | (k', v) :: d' => if String.eqb k' k then Some v else get d' k
  end.

(** [k in d] *)
Definition mem (d : t V) (k : string) : bool :=
  match get d k with Some _ => true | None => false end.

(** [d[k] = v]: an existing key keeps its position, a new key goes last. *)
Fixpoint set (d : t V) (k : string) (v : V) : t V :=
  match d with
  | [] => [(k, v)]
  | (k', v') :: d' =>
      if String.eqb k' k then (k', v) :: d' else (k', v') :: set d' k v
  end.

(** [d.update(e)] *)
Definition update (d e : t V) : t V :=
  fold_left (fun acc kv => set acc kv.1 kv.2) e d.

(** The invariant of a Python dict: no key occurs twice. *)
Definition wf (d : t V) : Prop := NoDup (keys d).

End Ops.

End Dict.

Abbreviation dict := Dict.t.

(** ** The client object *)

(** Modelled from the spec: [pocketbase.stores.base_auth_store] is not part of
  the sources at hand.  The spec's AuthStore is a mutable holder of an
  optional token and an optional identity record; the record is opaque to
  the dispatcher. *)
Record AuthStore : Type := mkAuthStore {
  token : option string;
  record : option string
}.

(** Truth value of [self.auth_store.token]: [None] and [""] are false. *)
Definition token_truthy (tok : option string) : bool :=
  match tok with
  | Some s => negb (String.eqb s "")
  | None => false
  end.

(** A heap location: the identity of a Python object. *)
Abbreviation loc := positive.

(** The attributes [Client.__init__] sets.  The eight resource services built
  there are collaborators outside this file and carry no state the
  dispatcher reads; [http_client] is the engine, a parameter below.
  [record_service] is a reference to the dict that maps a collection
  identifier to the RecordService bound to it: an ordinary dict of the
  heap, which a caller can reach as [client.record_service] and pass on
  like any other. *)
Record Client : Type := mkClient {
  base_url : string;
  lang : string;
  auth_store : AuthStore;
  timeout : Z;
  auto_snake_case : bool;
  record_service : loc
}.

(** [build_url]: join the base URL and a relative path. *)
Definition build_url (self : Client) (path : string) : string :=
  let url := base_url self in
  let url := if negb (Str.endswith (base_url self) "/") then url ++ "/" else url in
  let path := if Str.startswith path "/" then Str.slice1 path else path in
  url ++ path.

(** ** Values, objects and the HTTP engine *)

(** Modelled from the spec: [pocketbase.models.FileUpload] is not part of the
  sources at hand.  The spec's FileUpload wraps the raw bytes of an upload
  and is consumed only by the dispatcher, which calls [v.get(k)] on it to
  obtain the file parts of field [k].  The class and its method are taken
  as parameters. *)
Class FileUploadClass : Type := {
  FileUpload : Type;
  FilePart : Type;
  FileUpload_get : FileUpload -> string -> list FilePart
}.

(** The values a request config holds ([Any] in the source): [None], bool,
  int, str, a FileUpload, or a reference to a heap object.  Lists and
  floats are not modelled. *)
Inductive pyval `{FileUploadClass} : Type :=
| PyNone
| PyBool (b : bool)
| PyInt (n : Z)
| PyStr (s : string)
| PyFile (f : FileUpload)
| PyRef (l : loc).

(** Heap objects.  A dict is mutable and may be shared.  Modelled from the
  spec: [pocketbase.services.record_service] is not part of the sources at
  hand; the spec's RecordService is a handle bound to a collection
  identifier and to the owning client, built by [RecordService(self, id)].
  A location the heap does not map stands for an object of any other class;
  like a RecordService it is neither a dict nor a container. *)
Inductive obj `{FileUploadClass} : Type :=
| ODict (d : dict pyval)
| ORecordService (id_or_name : string).

(** The locations a value, an object and a heap refer to.  A new object is
  given a location outside them, so that it is no object the caller
  holds or refers to. *)
Definition val_locs `{FileUploadClass} (v : pyval) : gset loc :=
  match v with
  | PyRef l => {[ l ]}
  | _ => ∅
  end.

Definition obj_locs `{FileUploadClass} (o : obj) : gset loc :=
  match o with
  | ODict d => ⋃ (val_locs <$> d.*2)
  | ORecordService _ => ∅
  end.

Definition heap_locs `{FileUploadClass} (h : gmap loc obj) : gset loc :=
  dom h ∪ ⋃ (obj_locs <$> (map_to_list h).*2).

(** A decoded JSON document, what [response.json()] returns; [JNone] is
  Python's [None] (JSON null). *)
Inductive pyjson : Type :=
| JNone
| JBool (b : bool)
| JInt (n : Z)
| JStr (s : string)
| JList (l : list pyjson)
| JDict (d : list (string * pyjson)).

(** The keyword arguments of [self.http_client.request(...)]. *)
Record Request `{FileUploadClass} : Type := mkRequest {
  req_method : pyval;
  req_url : string;
  req_params : pyval;
  req_headers : pyval;
  req_json : pyval;
  req_data : option (dict pyval);
  req_files : option (list FilePart);
  req_timeout : Z
}.
Arguments mkRequest {_} _ _ _ _ _ _ _ _.

(** What the source reads of an [httpx.Response]: [status_code], [str(url)]
  and [content] (bytes). *)
Record Response : Type := mkResponse {
  status_code : Z;
  url : string;
  content : string
}.

(** The external HTTP engine ([httpx.Client]).  [request] either returns a
  response or raises an [Exception]; it may change the outside world but
  only reads the heap.  [response_json r] is [r.json()], [None] when that
  call raises. *)
Class HttpEngine `{FileUploadClass} : Type := {
  World : Type;
  EngineError : Type;
  error_str : EngineError -> string;
  request : Request -> gmap loc obj -> World -> (Response + EngineError) * World;
  response_json : Response -> option pyjson
}.

Section Dispatcher.
Context `{HttpEngine}.

(** Modelled from the spec: [pocketbase.errors] is not part of the sources at
  hand.  The spec's ClientResponseError carries a message, an optional
  URL, an optional status code, an optional parsed payload and an optional
  wrapped original error.  The record holds the arguments of the
  constructor call; a keyword the call does not give is [None]. *)
Record ClientResponseError : Type := mkClientResponseError {
  message : string;
  cre_url : option string;
  cre_status : option Z;
  cre_data : option pyjson;
  original_error : option EngineError
}.

(** Python exceptions the modelled code can raise. *)
Inductive exn : Type :=
| TypeError
| ValueError
| AttributeError
| KeyError (k : string)
| ClientResponseErr (e : ClientResponseError).

Inductive result (A : Type) : Type :=
| Ret (a : A)
| Raise (e : exn).
Arguments Ret {A} a.
Arguments Raise {A} e.

(** The mutable state: the client object, the heap, the outside world. *)
Record State : Type := mkState {
  client : Client;
  heap : gmap loc obj;
  world : World
}.

(** State and exceptions: a raised exception keeps the state reached. *)
Definition M (A : Type) : Type := State -> result A * State.

Definition ret {A} (a : A) : M A := fun s => (Ret a, s).

Definition raise {A} (e : exn) : M A := fun s => (Raise e, s).

Definition bind {A B} (m : M A) (k : A -> M B) : M B :=
  fun s => match m s with
           | (Ret a, s') => k a s'
           | (Raise e, s') => (Raise e, s')
           end.

Notation "x <- m ;; k" := (bind m (fun x => k))
  (at level 100, m at next level, right associativity).
Notation "m ;;; k" := (bind m (fun _ => k))
  (at level 100, right associativity).

Definition get_self : M Client := fun s => (Ret (client s), s).

Definition get_heap : M (gmap loc obj) := fun s => (Ret (heap s), s).

Definition set_heap (h : gmap loc obj) : M unit :=
  fun s => (Ret tt, mkState (client s) h (world s)).

(** The locations in use: those of the heap, those its dicts refer to, and
  the client's cache. *)
Definition used (s : State) : gset loc :=
  heap_locs (heap s) ∪ {[ record_service (client s) ]}.

(** A new object gets a location that is not in use. *)
Definition alloc (o : obj) : M loc :=
  fun s =>
    let l := fresh (used s) in
    (Ret l, mkState (client s) (<[l := o]> (heap s)) (world s)).

(** [isinstance(v, dict)], with the entries of the dict. *)
Definition as_dict (h : gmap loc obj) (v : pyval) : option (dict pyval) :=
  match v with
  | PyRef l => match h !! l with
               | Some (ODict d) => Some d
               | _ => None
               end
  | _ => None
  end.

(** [k in v]: key membership for a dict, substring for a str, [TypeError]
  for a value that is no container. *)
Definition py_in (k : string) (v : pyval) : M bool :=
  h <- get_heap ;;
  match v with
  | PyStr s => ret (Str.contains s k)
  | PyRef l => match h !! l with
               | Some (ODict d) => ret (Dict.mem d k)
               | _ => raise TypeError
               end
  | _ => raise TypeError
  end.

(** [v[k] = x]: item assignment on a dict object; [TypeError] for a value
  that supports none. *)
Definition py_setitem (v : pyval) (k : string) (x : pyval) : M unit :=
  h <- get_heap ;;
  match v with
  | PyRef l => match h !! l with
               | Some (ODict d) => set_heap (<[l := ODict (Dict.set d k x)]> h)
               | _ => raise TypeError
               end
  | _ => raise TypeError
  end.

(** [v[k]] on a dict object: [KeyError] for a missing key; [TypeError] for a
  value that is not subscriptable.  (A str is not modelled here: the
  source subscripts only [self.record_service].) *)
Definition py_getitem (v : pyval) (k : string) : M pyval :=
  h <- get_heap ;;
  match v with
  | PyRef l => match h !! l with
               | Some (ODict d) => match Dict.get d k with
                                   | Some x => ret x
                                   | None => raise (KeyError k)
                                   end
               | _ => raise TypeError
               end
  | _ => raise TypeError
  end.

(** [v.update(e)] for a dict literal [e]: updates the dict object in place;
  a value without that method raises [AttributeError].  [_send] reaches
  this call only with a new dict or with a value on which [in] returned
  false, that is a dict or a str. *)
Definition py_update (v : pyval) (e : dict pyval) : M unit :=
  h <- get_heap ;;
  match v with
  | PyRef l => match h !! l with
               | Some (ODict d) => set_heap (<[l := ODict (Dict.update d e)]> h)
               | _ => raise AttributeError
               end
  | _ => raise AttributeError
  end.

(** [config.update(req_config)] on the local dict [config]: a dict argument
  is merged; the empty str is an empty sequence of pairs; a longer str
  raises [ValueError]; anything else is not iterable. *)
Definition config_update (config : dict pyval) (req_config : pyval) : M (dict pyval) :=
  h <- get_heap ;;
  match req_config with
  | PyRef l => match h !! l with
               | Some (ODict d) => ret (Dict.update config d)
               | _ => raise TypeError
               end
  | PyStr s => if String.eqb s "" then ret config else raise ValueError
  | _ => raise TypeError
  end.

(** [isinstance(v, FileUpload)] *)
Definition is_FileUpload (v : pyval) : bool :=
  match v with PyFile _ => true | _ => false end.

(** One round of the loop over [body.items()]. *)
Definition body_step (acc : dict pyval * list FilePart) (kv : string * pyval)
  : dict pyval * list FilePart :=
  match kv.2 with
  | PyFile f => (acc.1, (acc.2 ++ FileUpload_get f kv.1)%list)
  | v => (Dict.set acc.1 kv.1 v, acc.2)
  end.

(** The loop: [data] and [files] start empty. *)
Definition body_loop (items : dict pyval) : dict pyval * list FilePart :=
  fold_left body_step items ([], []).

(** The [try] block of [_send]: one call of the engine; an exception it
  raises is wrapped into a [ClientResponseError] (lines 81 to 97). *)
Definition try_request (r : Request) : M Response :=
  fun s =>
    match request r (heap s) (world s) with
    | (inl response, w) => (Ret response, mkState (client s) (heap s) w)
    | (inr e, w) =>
        (Raise (ClientResponseErr
                  (mkClientResponseError
                     ("General request error. Original error: " ++ error_str e)
                     None None None (Some e))),
         mkState (client s) (heap s) w)
    end.

(** Lines 59 to 80: the URL and the arguments read off the final [config],
  with the encoding chosen from the body as the heap holds it. *)
Definition request_of (self : Client) (path : string) (config : dict pyval)
    (h : gmap loc obj) : Request :=
  let url := build_url self path in
  let method := default (PyStr "GET") (Dict.get config "method") in
  let params := default PyNone (Dict.get config "params") in
  let headers := default PyNone (Dict.get config "headers") in
  let body := default PyNone (Dict.get config "body") in
  let '(data, files) := body_loop (default [] (as_dict h body)) in
  let '(body, data, files) :=
    if (0 <? List.length files)%nat then (PyNone, Some data, Some files)
    else (body, None, None) in
  mkRequest method url params headers body data files (timeout self).

(** Lines 51 to 80 of [_send]: the local [config], the Authorization
  header, the arguments for the engine.  The [{}] that
  [config.get("headers", {})] builds is allocated only when the key is
  absent; when it is present the new dict is dropped at once. *)
Definition _send_request (path : string) (req_config : pyval) : M Request :=
  config <- config_update [("method", PyStr "GET")] req_config ;;
  self <- get_self ;;
  inject <-
    (if token_truthy (token (auth_store self)) then
       match Dict.get config "headers" with
       | None => ret true
       | Some hs => b <- py_in "Authorization" hs ;; ret (negb b)
       end
     else ret false) ;;
  config <-
    (if inject : bool then
       hs <- match Dict.get config "headers" with
             | Some hs => ret hs
             | None => l <- alloc (ODict []) ;; ret (PyRef l)
             end ;;
       let config := Dict.set config "headers" hs in
       py_update hs
         [("Authorization", match token (auth_store self) with
                            | Some t => PyStr t
                            | None => PyNone
                            end)] ;;;
       ret config
     else ret config) ;;
  h <- get_heap ;;
  ret (request_of self path config h).

(** [_send]: sends an api http request returning the response object. *)
Definition _send (path : string) (req_config : pyval) : M Response :=
  r <- _send_request path req_config ;;
  try_request r.

(** [collection]: the RecordService associated to the given collection.
  [RecordService(self, id_or_name)] makes a new object; the value returned
  is whatever the cache dict holds for the identifier. *)
Definition collection (id_or_name : string) : M pyval :=
  self <- get_self ;;
  b <- py_in id_or_name (PyRef (record_service self)) ;;
  (if negb b then
     l <- alloc (ORecordService id_or_name) ;;
     self <- get_self ;;
     py_setitem (PyRef (record_service self)) id_or_name (PyRef l)
   else ret tt) ;;;
  self <- get_self ;;
  py_getitem (PyRef (record_service self)) id_or_name.

(** [send_raw]: the raw bytes of the response. *)
Definition send_raw (path : string) (req_config : pyval) : M string :=
  response <- _send path req_config ;;
  ret (content response).

(** [send]: the decoded payload, or a [ClientResponseError] for a status of
  400 and more. *)
Definition send (path : string) (req_config : pyval) : M pyjson :=
  response <- _send path req_config ;;
  let data := match response_json response with
              | Some j => j
              | None => JNone
              end in
  if (400 <=? status_code response)%Z then
    raise (ClientResponseErr
             (mkClientResponseError
                ("Response error. Status code:" ++ Str.of_int (status_code response))
                (Some (url response))
                (Some (status_code response))
                (Some data)
                None))
  else ret data.

(** *** Vocabulary of the statements below *)

(** The local [config] of [_send] for a caller's config with entries [cfg]. *)
Definition merged (cfg : dict pyval) : dict pyval :=
  Dict.update [("method", PyStr "GET")] cfg.

(** The body of a config: [config.get("body", None)]. *)
Definition body_of (cfg : dict pyval) : pyval :=
  default PyNone (Dict.get cfg "body").

(** The entries of a body whose value is no FileUpload, in order. *)
Definition plain_fields (items : dict pyval) : dict pyval :=
  List.filter (fun kv => negb (is_FileUpload kv.2)) items.

(** The parts of the FileUpload entries of a body, in order. *)
Definition file_parts (items : dict pyval) : list FilePart :=
  flat_map (fun kv => match kv.2 with
                      | PyFile f => FileUpload_get f kv.1
                      | _ => []
                      end) items.

(** At least one entry's value is a FileUpload. *)
Definition has_file (items : dict pyval) : bool :=
  existsb (fun kv => is_FileUpload kv.2) items.

(** The headers entry of a config, when present, is a dict object, and it
  is not the object given as body. *)
Definition headers_typed (h : gmap loc obj) (cfg : dict pyval) : Prop :=
  forall hs, Dict.get cfg "headers" = Some hs ->
             is_Some (as_dict h hs) /\ Dict.get cfg "body" <> Some hs.

(** The [ClientResponseError] of a transport failure [e]. *)
Definition transport_error (e : EngineError) : exn :=
  ClientResponseErr
    (mkClientResponseError
       ("General request error. Original error: " ++ error_str e)
       None None None (Some e)).

(** A call of a method of the client during its lifetime. *)
Inductive call : Type :=
| Collection (id_or_name : string)
| Dispatch (path : string) (req_config : pyval).

(** One call, an exception being caught by the caller: the value a
  [collection] call returned, and the state the call left. *)
Definition run_call (c : call) (s : State) : option pyval * State :=
  match c with
  | Collection id_or_name =>
      match collection id_or_name s with
      | (Ret l, s') => (Some l, s')
      | (Raise _, s') => (None, s')
      end
  | Dispatch path req_config => (None, (send path req_config s).2)
  end.

(** A sequence of calls on the same client. *)
Fixpoint run (cs : list call) (s : State) : list (option pyval) * State :=
  match cs with
  | [] => ([], s)
  | c :: cs' =>
      let '(r, s1) := run_call c s in
      let '(rs, s2) := run cs' s1 in
      (r :: rs, s2)
  end.

(** The entries of the client's cache, as the heap holds them. *)
Definition cache_of (s : State) : dict pyval :=
  default [] (as_dict (heap s) (PyRef (record_service (client s)))).

(** The client's [record_service] is a dict of the heap, as [__init__]
  leaves it. *)
Definition cache_dict (s : State) : Prop :=
  is_Some (as_dict (heap s) (PyRef (record_service (client s)))).

(** The cache is a dict, and every value in it is a reference to the
  RecordService of its identifier; the one entry that may hold something
  else is "Authorization", which a dispatch writes when the cache itself
  is given as headers, and which holds no reference. *)
Definition cache_sound (s : State) : Prop :=
  is_Some (as_dict (heap s) (PyRef (record_service (client s)))) /\
  forall id v,
    Dict.get (cache_of s) id = Some v ->
    (exists l, v = PyRef l /\ heap s !! l = Some (ORecordService id)) \/
    (id = "Authorization" /\ forall l, v <> PyRef l).

(** Every entry of the cache of [s] is an entry of the cache of [s']. *)
Definition cache_grows (s s' : State) : Prop :=
  forall id v,
    Dict.get (cache_of s) id = Some v ->
    Dict.get (cache_of s') id = Some v.

(** [_send path rc] run from [s] calls the engine with the request [r], on
  the heap of [s'] and in the world of [s]; whatever that call of
  [request] returns or raises, [_send] returns it or raises it wrapped,
  in the world the call left. *)
Definition calls_engine (path : string) (rc : pyval) (s : State)
    (r : Request) (s' : State) : Prop :=
  world s' = world s /\
  forall out w,
    request r (heap s') (world s) = (out, w) ->
    _send path rc s =
      (match out with
       | inl response => Ret response
       | inr e => Raise (transport_error e)
       end,
       mkState (client s') (heap s') w).

(** What a dispatch may do to an object: nothing, or add to a dict without
  the key "Authorization" an entry for it that holds no reference. *)
Definition dict_gains (o o' : obj) : Prop :=
  o' = o \/
  exists d v,
    o = ODict d /\ Dict.get d "Authorization" = None /\
    (forall l, v <> PyRef l) /\
    o' = ODict (d ++ [("Authorization", v)])%list.

(** The client is the same and every object is the same or gained that
  entry. *)
Definition dispatch_step (s s' : State) : Prop :=
  client s' = client s /\
  forall l o, heap s !! l = Some o ->
              exists o', heap s' !! l = Some o' /\ dict_gains o o'.

(** [s'] has the client of [s] and every RecordService of [s]. *)
Definition frame (s s' : State) : Prop :=
  client s' = client s /\
  forall l id, heap s !! l = Some (ORecordService id) ->
               heap s' !! l = Some (ORecordService id).

(** A computation that keeps the frame, whatever it returns or raises. *)
Definition preserves {A} (m : M A) : Prop :=
  forall s r s', m s = (r, s') -> frame s s'.

(** [None], a bool or an int: a value that is neither a dict nor iterable. *)
Definition is_scalar (v : pyval) : bool :=
  match v with
  | PyNone | PyBool _ | PyInt _ => true
  | _ => false
  end.

(** The exceptions of Python's own operations on values. *)
Definition is_python_error (e : exn) : bool :=
  match e with
  | TypeError | ValueError | AttributeError => true
  | _ => false
  end.

(** A computation that does not reach the engine: it leaves the outside
  world alone, and what it raises is an exception of Python's own. *)
Definition before_engine {A} (m : M A) : Prop :=
  forall s r s',
    m s = (r, s') ->
    world s' = world s /\ forall e, r = Raise e -> is_python_error e = true.

(** Every object of the heap of [s] but the one at [c] is the same object
  in [s']. *)
Definition heap_kept_but (c : loc) (s s' : State) : Prop :=
  forall l o, heap s !! l = Some o -> l <> c -> heap s' !! l = Some o.

(** A call of [collection]. *)
Definition is_collection (c : call) : Prop :=
  exists a, c = Collection a.

End Dispatcher.

Arguments Ret {_ _ A} a.
Arguments Raise {_ _ A} e.
Arguments preserves {_ _ A} m.
Arguments before_engine {_ _ A} m.

(** [Client.__init__] on a heap [h]: the client a constructor call yields,
  with the defaults of the source, and the heap with the new empty dict of
  [record_service]; an [auth_store] that is not given is a new empty
  in-memory store. *)
Definition Client_init `{FileUploadClass} (base_url : option string)
    (lang : option string) (auth_store : option AuthStore)
    (timeout : option Z) (auto_snake_case : option bool)
    (h : gmap loc obj) : Client * gmap loc obj :=
  let l := fresh (heap_locs h) in
  (mkClient (default "/" base_url) (default "en-US" lang)
            (default (mkAuthStore None None) auth_store)
            (default 120%Z timeout) (default true auto_snake_case) l,
   <[l := ODict []]> h).

(** ** A concrete engine for the examples *)

Module Demo.

(** A FileUpload holding one payload; [get] yields one part for the field. *)
Definition files : FileUploadClass :=
  {| FileUpload := string;
     FilePart := string * string;
     FileUpload_get := fun f k => [(k, f)] |}.

Definition dq : string := String "034"%char EmptyString.

(** The bodies [{"id":"1"}] and [{"message":"not found"}]. *)
Definition body_id : string := "{" ++ dq ++ "id" ++ dq ++ ":" ++ dq ++ "1" ++ dq ++ "}".

Definition body_not_found : string :=
  "{" ++ dq ++ "message" ++ dq ++ ":" ++ dq ++ "not found" ++ dq ++ "}".

(** A decoder that knows these two documents. *)
Definition decode (r : Response) : option pyjson :=
  if String.eqb (content r) body_id then Some (JDict [("id", JStr "1")])
  else if String.eqb (content r) body_not_found
       then Some (JDict [("message", JStr "not found")])
  else None.

(** An engine that logs every request it receives.  It refuses the
  connection for a URL ending in "down", answers 404 for one ending in
  "missing", an HTML page for one ending in "page", and a record
  otherwise. *)
Definition engine : @HttpEngine files :=
  {| World := list (@Request files);
     EngineError := string;
     error_str := fun e => e;
     request := fun r _ w =>
       (if Str.endswith (req_url r) "down" then inr "connection refused"
        else if Str.endswith (req_url r) "missing"
             then inl (mkResponse 404 (req_url r) body_not_found)
        else if Str.endswith (req_url r) "page"
             then inl (mkResponse 200 (req_url r) "<html>")
        else inl (mkResponse 200 (req_url r) body_id),
        (w ++ [r])%list);
     response_json := decode |}.

(** The caller's objects: at 1 a config with headers (2) and a body with a
  file (3); at 4 a config whose headers (5) carry an Authorization of the
  caller's own; at 6 an empty config; at 7 a config with a plain body (8). *)
Definition objects : gmap loc (@obj files) :=
  list_to_map
    [(1%positive, ODict [("headers", PyRef 2); ("body", PyRef 3)]);
     (2%positive, ODict [("X", PyStr "1")]);
     (3%positive, ODict [("title", PyStr "t"); ("doc", PyFile ("bytes" : @FileUpload files));
                         ("n", PyInt 3)]);
     (4%positive, ODict [("headers", PyRef 5)]);
     (5%positive, ODict [("Authorization", PyStr "mine")]);
     (6%positive, @ODict files []);
     (7%positive, ODict [("method", PyStr "POST"); ("body", PyRef 8)]);
     (8%positive, ODict [("title", PyStr "t")])].

(** A client for a given base URL and token, constructed beside those
  objects, and a state around it: a caller's objects, the client's empty
  cache, and no request sent yet. *)
Definition client_at (b : string) (tok : option string) : Client :=
  (Client_init (Some b) None (Some (mkAuthStore tok None)) None None objects).1.

Definition state_of (c : Client) (h : gmap loc (@obj files)) : @State files engine :=
  mkState c (<[record_service c := ODict []]> h)
          (@nil (@Request files) : @World files engine).

(** A logged-in and an anonymous client at "http://h", with those objects. *)
Definition logged_in : @State files engine :=
  state_of (client_at "http://h" (Some "tok")) objects.

Definition anonymous : @State files engine :=
  state_of (client_at "http://h" None) objects.

Definition empty_token : @State files engine :=
  state_of (client_at "http://h" (Some "")) objects.

(** The request an empty config makes for a path, from the anonymous client. *)
Definition bare_request (path : string) : @Request files :=
  mkRequest (PyStr "GET") ("http://h" ++ path) PyNone PyNone PyNone None None 120.

(** A client's life: a collection, a dispatch, the same collection, another. *)
Definition calls : list (@call files) :=
  [Collection "posts"; Dispatch "/x" (PyRef 1); Collection "posts";
   Collection "comments"].

(** More of a caller's objects: at 1 a config whose headers are [None]; at
  2 a config with a text body, a method given as [None] and params (3). *)
Definition more_objects : gmap loc (@obj files) :=
  list_to_map
    [(1%positive, ODict [("headers", @PyNone files)]);
     (2%positive, ODict [("body", PyStr "raw text"); ("method", PyNone);
                         ("params", PyRef 3)]);
     (3%positive, ODict [("q", PyStr "x")])].

Definition logged_in_more : @State files engine :=
  state_of (client_at "http://h" (Some "tok")) more_objects.

(** A config (1) that gives one and the same dict (2) as headers and as
  body: a title and a file. *)
Definition aliased_objects : gmap loc (@obj files) :=
  list_to_map
    [(1%positive, ODict [("headers", PyRef 2); ("body", PyRef 2)]);
     (2%positive, ODict [("title", PyStr "t");
                         ("doc", PyFile ("bytes" : @FileUpload files))])].

Definition logged_in_aliased : @State files engine :=
  state_of (client_at "http://h" (Some "tok")) aliased_objects.




End Demo.

(** ** Facts about strings and dicts *)

Lemma append_assoc (a b c : string) : (a ++ b) ++ c = a ++ b ++ c.
Proof.
  induction a as [|x a IH]; [reflexivity|].
  change (String x ((a ++ b) ++ c) = String x (a ++ b ++ c)).
  rewrite IH. reflexivity.
Qed.

Lemma endswith_unfold (s p : string) :
  Str.endswith s p =
  if String.eqb s p then true
  else match s with
       | EmptyString => false
       | String _ t => Str.endswith t p
       end.
Proof. destruct s; reflexivity. Qed.

Lemma endswith_app (b p : string) : Str.endswith (b ++ p) p = true.
Proof.
  induction b as [|a b IH]; rewrite endswith_unfold.
  - simpl. rewrite String.eqb_refl. reflexivity.
  - destruct (String.eqb _ _); [reflexivity | exact IH].
Qed.

Lemma startswith_cons (a : ascii) (p : string) :
  Str.startswith (String a p) (String a EmptyString) = true.
Proof.
  unfold Str.startswith. simpl.
  destruct (ascii_dec a a) as [_|n]; [|contradiction].
  destruct p; reflexivity.
Qed.

(** C6: for a base [b] that does not end with "/" and a path [p] that does
  not start with "/", the base given as [b] or as [b/] and the path given
  as [p] or as [/p] all build the URL [b/p]: base and path verbatim,
  joined by exactly one "/".  [build_url] is a total function. *)
Theorem build_url_one_separator (self : Client) (b p path : string) :
  Str.endswith b "/" = false ->
  Str.startswith p "/" = false ->
  base_url self = b \/ base_url self = b ++ "/" ->
  path = p \/ path = "/" ++ p ->
  build_url self path = b ++ "/" ++ p.
Proof.
  intros Hb Hp [Hbase|Hbase] [Hpath|Hpath]; subst path;
    unfold build_url; rewrite Hbase.
  - rewrite Hb, Hp. simpl. apply append_assoc.
  - rewrite Hb. simpl negb. cbv iota.
    change ("/" ++ p) with (String "/" p).
    rewrite startswith_cons. simpl. apply append_assoc.
  - rewrite endswith_app, Hp. simpl. apply append_assoc.
  - rewrite endswith_app. simpl negb. cbv iota.
    change ("/" ++ p) with (String "/" p).
    rewrite startswith_cons. simpl. apply append_assoc.
Qed.

(** The table of the spec: bases "/", "http://h/" and "http://h", paths "a"
  and "/a". *)
Lemma build_url_one_separator_table :
  build_url (Demo.client_at "/" None) "a" = "/a" /\
  build_url (Demo.client_at "/" None) "/a" = "/a" /\
  build_url (Demo.client_at "http://h/" None) "a" = "http://h/a" /\
  build_url (Demo.client_at "http://h/" None) "/a" = "http://h/a" /\
  build_url (Demo.client_at "http://h" None) "a" = "http://h/a" /\
  build_url (Demo.client_at "http://h" None) "/a" = "http://h/a".
Proof.
  refine (conj _ (conj _ (conj _ (conj _ (conj _ _))))).
  - apply (build_url_one_separator _ "" "a");
      [reflexivity | reflexivity | right; reflexivity | left; reflexivity].
  - apply (build_url_one_separator _ "" "a");
      [reflexivity | reflexivity | right; reflexivity | right; reflexivity].
  - apply (build_url_one_separator _ "http://h" "a");
      [reflexivity | reflexivity | right; reflexivity | left; reflexivity].
  - apply (build_url_one_separator _ "http://h" "a");
      [reflexivity | reflexivity | right; reflexivity | right; reflexivity].
  - apply (build_url_one_separator _ "http://h" "a");
      [reflexivity | reflexivity | left; reflexivity | left; reflexivity].
  - apply (build_url_one_separator _ "http://h" "a");
      [reflexivity | reflexivity | left; reflexivity | right; reflexivity].
Defined.

Section DictFacts.
Context {V : Type}.
Implicit Types (d e : dict V) (k : string) (v : V).

Lemma dict_get_cons d k k' v :
  Dict.get ((k', v) :: d) k = if String.eqb k' k then Some v else Dict.get d k.
Proof. reflexivity. Qed.

Lemma dict_get_None d k : Dict.get d k = None <-> k ∉ Dict.keys d.
Proof.
  induction d as [|[k' v'] d IH]; simpl.
  - split; [intros _; apply not_elem_of_nil | reflexivity].
  - destruct (String.eqb_spec k' k) as [->|Hne].
    + split; [discriminate | intros Hn; exfalso; apply Hn; left].
    + rewrite IH, not_elem_of_cons. split; [intros Hn; split; congruence | tauto].
Qed.

Lemma dict_get_set_eq d k v : Dict.get (Dict.set d k v) k = Some v.
Proof.
  induction d as [|[k' v'] d IH]; simpl.
  - rewrite String.eqb_refl. reflexivity.
  - destruct (String.eqb_spec k' k) as [->|Hne]; simpl.
    + rewrite String.eqb_refl. reflexivity.
    + destruct (String.eqb_spec k' k); [contradiction | exact IH].
Qed.

Lemma dict_get_set_ne d k k' v :
  k <> k' -> Dict.get (Dict.set d k v) k' = Dict.get d k'.
Proof.
  intros Hne. induction d as [|[k0 v0] d IH]; simpl.
  - destruct (String.eqb_spec k k'); [contradiction | reflexivity].
  - destruct (String.eqb_spec k0 k) as [->|Hk]; simpl.
    + destruct (String.eqb_spec k k'); [contradiction | reflexivity].
    + rewrite IH. reflexivity.
Qed.

(** A key that is new goes to the end. *)
Lemma dict_set_fresh d k v : k ∉ Dict.keys d -> Dict.set d k v = (d ++ [(k, v)])%list.
Proof.
  induction d as [|[k' v'] d IH]; simpl; intros Hk; [reflexivity|].
  apply not_elem_of_cons in Hk as [Hne Hk].
  destruct (String.eqb_spec k' k); [congruence|].
  rewrite IH by exact Hk. reflexivity.
Qed.

(** [update] with a well-formed dict: its entries win, the others stay. *)
Lemma dict_get_update d e k :
  Dict.wf e ->
  Dict.get (Dict.update d e) k =
  match Dict.get e k with Some v => Some v | None => Dict.get d k end.
Proof.
  unfold Dict.update, Dict.wf. revert d.
  induction e as [|[k1 v1] e IH]; intros d Hwf; simpl; [reflexivity|].
  simpl in Hwf. apply NoDup_cons in Hwf as [Hk1 Hwf].
  rewrite IH by exact Hwf.
  destruct (String.eqb_spec k1 k) as [->|Hne].
  - apply dict_get_None in Hk1. rewrite Hk1. apply dict_get_set_eq.
  - rewrite dict_get_set_ne by exact Hne. reflexivity.
Qed.

End DictFacts.

(** ** Facts about the dispatcher *)

Section DispatcherFacts.
Context `{HttpEngine}.
Implicit Types (s : State) (cfg config d : dict pyval) (h : gmap loc obj).
Implicit Types (rc hs : pyval) (path k : string).

Lemma as_dict_Some h v d :
  as_dict h v = Some d <-> exists l, v = PyRef l /\ h !! l = Some (ODict d).
Proof.
  split.
  - destruct v as [| | | | |l]; simpl; try discriminate.
    destruct (h !! l) as [[d'|]|] eqn:E; try discriminate.
    intros [= ->]. exists l. split; [reflexivity | exact E].
  - intros (l & -> & E). simpl. rewrite E. reflexivity.
Qed.

Lemma merged_get cfg k :
  Dict.wf cfg -> k <> "method" -> Dict.get (merged cfg) k = Dict.get cfg k.
Proof.
  intros Hwf Hk. unfold merged. rewrite dict_get_update by exact Hwf.
  destruct (Dict.get cfg k); [reflexivity|].
  rewrite dict_get_cons.
  destruct (String.eqb_spec "method" k); [congruence | reflexivity].
Qed.

Lemma token_truthy_Some t : t <> "" -> token_truthy (Some t) = true.
Proof.
  intros Ht. simpl. destruct (String.eqb_spec t ""); [contradiction | reflexivity].
Qed.

Lemma config_update_dict config rc cfg s :
  as_dict (heap s) rc = Some cfg ->
  config_update config rc s = (Ret (Dict.update config cfg), s).
Proof.
  intros (l & -> & E)%as_dict_Some.
  unfold config_update, bind, get_heap, ret. rewrite E. reflexivity.
Qed.

Lemma py_in_dict k hs d s :
  as_dict (heap s) hs = Some d -> py_in k hs s = (Ret (Dict.mem d k), s).
Proof.
  intros (l & -> & E)%as_dict_Some.
  unfold py_in, bind, get_heap, ret. rewrite E. reflexivity.
Qed.

(** [_send] is the engine call on the request [_send_request] computes. *)
Lemma send_of_request path rc s r s' :
  _send_request path rc s = (Ret r, s') -> _send path rc s = try_request r s'.
Proof. intros E. unfold _send, bind. rewrite E. reflexivity. Qed.

(** No header is added: the token is false, or the caller's headers hold the
  key already.  The state is left as it was. *)
Lemma send_request_plain path rc s cfg :
  as_dict (heap s) rc = Some cfg ->
  (token_truthy (token (auth_store (client s))) = false \/
   exists hs d, Dict.get (merged cfg) "headers" = Some hs /\
                as_dict (heap s) hs = Some d /\
                Dict.mem d "Authorization" = true) ->
  _send_request path rc s =
    (Ret (request_of (client s) path (merged cfg) (heap s)), s).
Proof.
  intros Hrc Hcase. unfold _send_request, bind at 1.
  rewrite (config_update_dict _ _ _ _ Hrc). fold (merged cfg).
  unfold bind, get_self, get_heap, ret.
  destruct Hcase as [Htok | (hs & d & Hhs & Hd & Hmem)].
  - rewrite Htok. reflexivity.
  - destruct (token_truthy _); [|reflexivity].
    rewrite Hhs. rewrite (py_in_dict _ _ _ _ Hd), Hmem. reflexivity.
Qed.

(** The caller's headers dict at [l] lacks the key: the entry is added to
  that very object. *)
Lemma send_request_inject path rc s cfg l d t :
  as_dict (heap s) rc = Some cfg ->
  token (auth_store (client s)) = Some t -> t <> "" ->
  Dict.get (merged cfg) "headers" = Some (PyRef l) ->
  heap s !! l = Some (ODict d) ->
  Dict.mem d "Authorization" = false ->
  let h' := <[l := ODict (Dict.set d "Authorization" (PyStr t))]> (heap s) in
  _send_request path rc s =
    (Ret (request_of (client s) path
            (Dict.set (merged cfg) "headers" (PyRef l)) h'),
     mkState (client s) h' (world s)).
Proof.
  intros Hrc Htok Ht Hhs Hl Hmem h'. unfold _send_request, bind at 1.
  rewrite (config_update_dict _ _ _ _ Hrc). fold (merged cfg).
  unfold bind, get_self, get_heap, ret.
  rewrite Htok, (token_truthy_Some _ Ht), Hhs.
  assert (Hd : as_dict (heap s) (PyRef l) = Some d) by (simpl; rewrite Hl; reflexivity).
  rewrite (py_in_dict _ _ _ _ Hd), Hmem. simpl negb. cbv iota.
  unfold py_update, bind, get_heap, set_heap.
  change (negb false) with true. cbv beta iota.
  rewrite Hl. reflexivity.
Qed.

(** The caller gave no headers: a new dict holds the entry. *)
Lemma send_request_fresh path rc s cfg t :
  as_dict (heap s) rc = Some cfg ->
  token (auth_store (client s)) = Some t -> t <> "" ->
  Dict.get (merged cfg) "headers" = None ->
  let l := fresh (used s) in
  let h' := <[l := ODict [("Authorization", PyStr t)]]> (heap s) in
  _send_request path rc s =
    (Ret (request_of (client s) path
            (Dict.set (merged cfg) "headers" (PyRef l)) h'),
     mkState (client s) h' (world s)).
Proof.
  intros Hrc Htok Ht Hhs l h'. unfold _send_request, bind at 1.
  rewrite (config_update_dict _ _ _ _ Hrc). fold (merged cfg).
  unfold bind, get_self, get_heap, ret.
  rewrite Htok, (token_truthy_Some _ Ht), Hhs.
  unfold alloc, py_update, bind, get_heap, set_heap. cbn [heap client world].
  fold l. rewrite lookup_insert_eq. cbn [heap client world].
  unfold h'. rewrite insert_insert_eq. reflexivity.
Qed.

(** *** The arguments read off the config *)

Lemma request_of_headers c path config h :
  req_headers (request_of c path config h) =
  default PyNone (Dict.get config "headers").
Proof.
  unfold request_of.
  destruct (body_loop _) as [data files].
  destruct (0 <? List.length files)%nat; reflexivity.
Qed.

(** The encoding: multipart when the loop found a part, JSON otherwise. *)
Lemma request_of_encoding c path config h :
  let body := default PyNone (Dict.get config "body") in
  let r := request_of c path config h in
  let df := body_loop (default [] (as_dict h body)) in
  match df.2 with
  | [] => req_json r = body /\ req_data r = None /\ req_files r = None
  | _ :: _ =>
      req_json r = PyNone /\ req_data r = Some df.1 /\ req_files r = Some df.2
  end.
Proof.
  intros body r df. unfold r, request_of. fold body. fold df.
  destruct df as [data [|p files]]; simpl; repeat split; reflexivity.
Qed.

(** The loop, from any accumulator whose keys are new to the items. *)
Lemma body_loop_acc (items data : dict pyval) (files : list FilePart) :
  NoDup (Dict.keys data ++ Dict.keys items)%list ->
  fold_left body_step items (data, files) =
  ((data ++ plain_fields items)%list, (files ++ file_parts items)%list).
Proof.
  revert data files.
  induction items as [|[k v] items IH]; intros data files Hnd.
  - simpl. rewrite !app_nil_r. reflexivity.
  - assert (Hk : k ∉ Dict.keys data).
    { apply NoDup_app in Hnd as (_ & Hdisj & _).
      intros Hin. apply (Hdisj k Hin). left. }
    assert (Hnd' : NoDup (Dict.keys (data ++ [(k, v)])%list ++ Dict.keys items)%list).
    { unfold Dict.keys in *. rewrite fmap_app. simpl.
      rewrite <- app_assoc. exact Hnd. }
    assert (Hnd0 : NoDup (Dict.keys data ++ Dict.keys items)%list).
    { apply NoDup_app in Hnd as (Hd & Hdisj & Hi).
      apply NoDup_app. split; [exact Hd|]. split.
      - intros x Hx Hx'. apply (Hdisj x Hx). right. exact Hx'.
      - simpl in Hi. apply NoDup_cons in Hi as [_ Hi]. exact Hi. }
    destruct v; simpl fold_left; unfold body_step at 2; cbn [fst snd];
      try (rewrite (dict_set_fresh _ _ _ Hk), (IH _ _ Hnd');
           unfold plain_fields, file_parts; simpl;
           rewrite <- app_assoc; reflexivity).
    rewrite (IH _ _ Hnd0). unfold plain_fields, file_parts. simpl.
    rewrite <- app_assoc. reflexivity.
Qed.

Lemma body_loop_wf (items : dict pyval) :
  Dict.wf items -> body_loop items = (plain_fields items, file_parts items).
Proof.
  intros Hwf. unfold body_loop. rewrite body_loop_acc; [reflexivity | exact Hwf].
Qed.

Lemma file_parts_nonempty (items : dict pyval) :
  (forall f k, FileUpload_get f k <> []) ->
  has_file items = true -> file_parts items <> [].
Proof.
  intros Hget. induction items as [|[k v] items IH]; simpl; [discriminate|].
  unfold file_parts. simpl. destruct v; simpl; try exact IH.
  intros _ Happ. apply app_eq_nil in Happ as [Hnil _]. exact (Hget _ _ Hnil).
Qed.

Lemma file_parts_no_file (items : dict pyval) :
  has_file items = false -> file_parts items = [].
Proof.
  induction items as [|[k v] items IH]; simpl; [reflexivity|].
  unfold file_parts. simpl. destruct v; simpl; try exact IH. discriminate.
Qed.

(** *** What [_send_request] leaves in place *)

Lemma token_truthy_cases (tok : option string) :
  token_truthy tok = false \/ exists t, tok = Some t /\ t <> "".
Proof.
  destruct tok as [t|]; [|left; reflexivity]. simpl.
  destruct (String.eqb_spec t ""); [left; reflexivity | right; eauto].
Qed.

Lemma used_mapped s l (o : obj) : heap s !! l = Some o -> l ∈ used s.
Proof.
  intros Hl. unfold used, heap_locs. apply elem_of_union_l, elem_of_union_l.
  apply elem_of_dom. eauto.
Qed.

Lemma fresh_not_mapped s l (o : obj) :
  heap s !! l = Some o -> l <> fresh (used s).
Proof.
  intros Hl ->. apply (is_fresh (used s)). exact (used_mapped _ _ _ Hl).
Qed.

(** For a config that is a dict whose headers, if any, are a dict,
  [_send_request] returns.  It leaves the client and the world alone, reads
  every key but "headers" and "method" as the caller gave it, and changes
  no object but the caller's headers dict. *)
Lemma send_request_total path rc s cfg :
  as_dict (heap s) rc = Some cfg ->
  Dict.wf cfg ->
  (forall hs, Dict.get cfg "headers" = Some hs -> is_Some (as_dict (heap s) hs)) ->
  exists config' s',
    _send_request path rc s =
      (Ret (request_of (client s) path config' (heap s')), s') /\
    client s' = client s /\ world s' = world s /\
    (forall k, k <> "headers" -> k <> "method" ->
               Dict.get config' k = Dict.get cfg k) /\
    (forall l o, heap s !! l = Some o ->
                 Dict.get cfg "headers" <> Some (PyRef l) ->
                 heap s' !! l = Some o).
Proof.
  intros Hrc Hwf Hty.
  assert (Hhdr : Dict.get (merged cfg) "headers" = Dict.get cfg "headers")
    by (apply merged_get; [exact Hwf | discriminate]).
  assert (Hplain : forall k, k <> "headers" -> k <> "method" ->
                             Dict.get (merged cfg) k = Dict.get cfg k)
    by (intros k _ Hk; apply merged_get; assumption).
  assert (Hset : forall v k, k <> "headers" -> k <> "method" ->
            Dict.get (Dict.set (merged cfg) "headers" v) k = Dict.get cfg k).
  { intros v k Hk1 Hk2. rewrite dict_get_set_ne by congruence. auto. }
  destruct (token_truthy_cases (token (auth_store (client s))))
    as [Htok | (t & Htok & Ht)].
  { exists (merged cfg), s. split; [|auto].
    apply send_request_plain with (cfg := cfg); auto. }
  destruct (Dict.get cfg "headers") as [hs|] eqn:Ehs.
  - destruct (Hty hs eq_refl) as [d Hd].
    destruct (Dict.mem d "Authorization") eqn:Emem.
    + exists (merged cfg), s. split; [|auto].
      apply send_request_plain with (cfg := cfg); [exact Hrc|].
      right. exists hs, d. auto.
    + pose proof Hd as (l & -> & Hl)%as_dict_Some.
      exists (Dict.set (merged cfg) "headers" (PyRef l)),
        (mkState (client s)
           (<[l := ODict (Dict.set d "Authorization" (PyStr t))]> (heap s))
           (world s)).
      split.
      { apply (send_request_inject path rc s cfg l d t); auto. }
      cbn [client world heap]. repeat split; auto.
      intros l' o Hl' Hne. rewrite lookup_insert_ne; [exact Hl' | congruence].
  - exists (Dict.set (merged cfg) "headers" (PyRef (fresh (used s)))),
      (mkState (client s)
         (<[fresh (used s) := ODict [("Authorization", PyStr t)]]> (heap s))
         (world s)).
    split.
    { apply (send_request_fresh path rc s cfg t); auto. }
    cbn [client world heap]. repeat split; auto.
    intros l' o Hl' _. rewrite lookup_insert_ne; [exact Hl'|].
    intros Heq. symmetry in Heq. revert Heq. apply fresh_not_mapped with o. exact Hl'.
Qed.

(** *** The Authorization header *)

Lemma dict_mem_false (d : dict pyval) k :
  Dict.get d k = None -> Dict.mem d k = false.
Proof. unfold Dict.mem. intros ->. reflexivity. Qed.

Lemma dict_mem_true (d : dict pyval) k v :
  Dict.get d k = Some v -> Dict.mem d k = true.
Proof. unfold Dict.mem. intros ->. reflexivity. Qed.

(** When [_send_request] returns [r] in [s'] with the world of [s], the
  engine is called with [r], and [_send] ends as that call ends. *)
Lemma calls_engine_intro path rc s r s' :
  _send_request path rc s = (Ret r, s') ->
  world s' = world s ->
  calls_engine path rc s r s'.
Proof.
  intros E Hw. split; [exact Hw|]. intros out w Hreq.
  rewrite (send_of_request _ _ _ _ _ E). unfold try_request.
  rewrite Hw, Hreq. destruct out; reflexivity.
Qed.

(** C1: with a non-empty token [t], when the caller's config has no
  "headers" key or its headers dict lacks the key "Authorization", the
  engine's [request] is called with headers that map "Authorization" to
  [PyStr t], the token as stored; and when the caller's headers dict holds
  an "Authorization" entry, [request] is called with that very dict and on
  the unchanged heap, so the caller's value is the one sent.  In both
  cases [_send] ends as that call of [request] ends. *)
Theorem send_authorization_header path rc s cfg :
  as_dict (heap s) rc = Some cfg ->
  Dict.wf cfg ->
  (forall t,
     token (auth_store (client s)) = Some t -> t <> "" ->
     (Dict.get cfg "headers" = None \/
      exists hs d, Dict.get cfg "headers" = Some hs /\
                   as_dict (heap s) hs = Some d /\
                   Dict.get d "Authorization" = None) ->
     exists r s' d',
       calls_engine path rc s r s' /\
       as_dict (heap s') (req_headers r) = Some d' /\
       Dict.get d' "Authorization" = Some (PyStr t)) /\
  (forall hs d v,
     Dict.get cfg "headers" = Some hs ->
     as_dict (heap s) hs = Some d ->
     Dict.get d "Authorization" = Some v ->
     exists r,
       calls_engine path rc s r s /\
       req_headers r = hs /\
       as_dict (heap s) (req_headers r) = Some d).
Proof.
  intros Hrc Hwf.
  assert (Hhdr : Dict.get (merged cfg) "headers" = Dict.get cfg "headers")
    by (apply merged_get; [exact Hwf | discriminate]).
  split.
  - intros t Htok Ht [Hnone | (hs & d & Hhs & Hd & Hget)].
    + rewrite Hnone in Hhdr.
      pose proof (send_request_fresh path rc s cfg t Hrc Htok Ht Hhdr) as E.
      cbv zeta in E. apply calls_engine_intro in E; [|reflexivity].
      eexists _, _, _. split; [exact E|].
      rewrite request_of_headers, dict_get_set_eq.
      cbn [from_option id heap as_dict].
      rewrite lookup_insert_eq. split; reflexivity.
    + pose proof Hd as (l & -> & Hl)%as_dict_Some.
      rewrite Hhs in Hhdr.
      pose proof (send_request_inject path rc s cfg l d t Hrc Htok Ht Hhdr Hl
                    (dict_mem_false _ _ Hget)) as E.
      cbv zeta in E. apply calls_engine_intro in E; [|reflexivity].
      eexists _, _, _. split; [exact E|].
      rewrite request_of_headers, dict_get_set_eq.
      cbn [from_option id heap as_dict].
      rewrite lookup_insert_eq. split; [reflexivity|].
      apply dict_get_set_eq.
  - intros hs d v Hhs Hd Hget. rewrite Hhs in Hhdr.
    eexists. split.
    + apply calls_engine_intro; [|reflexivity].
      apply send_request_plain with (cfg := cfg); [exact Hrc|].
      right. exists hs, d. split; [exact Hhdr|]. split; [exact Hd|].
      exact (dict_mem_true _ _ _ Hget).
    + rewrite request_of_headers, Hhdr. split; [reflexivity | exact Hd].
Qed.

(** C10: with no token or the empty token, the engine is called in the
  unchanged state with the caller's headers value, [None] when the caller
  gave none. *)
Theorem send_without_token path rc s cfg :
  as_dict (heap s) rc = Some cfg ->
  Dict.wf cfg ->
  token (auth_store (client s)) = None \/
  token (auth_store (client s)) = Some "" ->
  exists r,
    _send path rc s = try_request r s /\
    req_headers r = default PyNone (Dict.get cfg "headers").
Proof.
  intros Hrc Hwf Htok. eexists. split.
  - apply send_of_request. apply send_request_plain with (cfg := cfg); [exact Hrc|].
    left. destruct Htok as [-> | ->]; reflexivity.
  - rewrite request_of_headers, merged_get; [reflexivity | exact Hwf | discriminate].
Qed.

(** *** JSON or multipart *)

(** X22: for a config whose headers, if any, are a dict other than the
  body, and a FileUpload class whose [get] yields at least one part, the
  engine's [request] is called, and [_send] ends as that call ends.  When
  the body is a dict with a FileUpload entry, the JSON body is [None], the
  form data are the entries that are no FileUpload and the files are the
  parts of the FileUpload entries; when the body is a dict with no
  FileUpload entry, that dict is the JSON body and there are neither form
  data nor files; when the body is absent, there is no JSON body, no form
  data and no files. *)
Theorem send_encoding path rc s cfg :
  as_dict (heap s) rc = Some cfg ->
  Dict.wf cfg ->
  headers_typed (heap s) cfg ->
  (forall f k, FileUpload_get f k <> []) ->
  exists r s',
    calls_engine path rc s r s' /\
    (forall items,
       as_dict (heap s) (body_of cfg) = Some items ->
       Dict.wf items ->
       as_dict (heap s') (body_of cfg) = Some items /\
       if has_file items
       then req_json r = PyNone /\
            req_data r = Some (plain_fields items) /\
            req_files r = Some (file_parts items)
       else req_json r = body_of cfg /\
            req_data r = None /\ req_files r = None) /\
    (body_of cfg = PyNone ->
     req_json r = PyNone /\ req_data r = None /\ req_files r = None).
Proof.
  intros Hrc Hwf Hty Hget.
  destruct (send_request_total path rc s cfg Hrc Hwf)
    as (config' & s' & E & _ & Hw & Hkeys & Hframe).
  { intros hs Hhs. apply (Hty hs Hhs). }
  assert (Hbody : default PyNone (Dict.get config' "body") = body_of cfg).
  { unfold body_of. rewrite Hkeys by discriminate. reflexivity. }
  pose proof (request_of_encoding (client s) path config' (heap s')) as Henc.
  cbv zeta in Henc. rewrite Hbody in Henc.
  eexists _, s'. split; [apply calls_engine_intro; [exact E | exact Hw]|]. split.
  - intros items Hitems Hwfi.
    assert (Hitems' : as_dict (heap s') (body_of cfg) = Some items).
    { pose proof Hitems as (l & Hl & Hobj)%as_dict_Some. rewrite Hl.
      apply as_dict_Some. exists l. split; [reflexivity|].
      apply Hframe; [exact Hobj|]. intros Hhs.
      destruct (Hty _ Hhs) as [_ Hne]. apply Hne.
      unfold body_of in Hl. destruct (Dict.get cfg "body"); simpl in Hl; congruence. }
    split; [exact Hitems'|].
    rewrite Hitems' in Henc. cbn [from_option id] in Henc.
    rewrite (body_loop_wf _ Hwfi) in Henc. cbn [fst snd] in Henc.
    destruct (has_file items) eqn:Ehas.
    + pose proof (file_parts_nonempty items Hget Ehas) as Hne.
      destruct (file_parts items); [contradiction | exact Henc].
    + rewrite (file_parts_no_file _ Ehas) in Henc. exact Henc.
  - intros Hnone. rewrite Hnone in Henc. exact Henc.
Qed.

(** *** Responses and errors *)

(** C3: when [_send] returns a response, [send] raises for a status of 400
  and more a ClientResponseError whose message ends with the status code,
  whose url and status are those of the response, and whose data is the
  decoded body, [None] when the body does not decode; for a status below
  400 it returns the decoded body. *)
Theorem send_status path rc s response s' :
  _send path rc s = (Ret response, s') ->
  ((400 <= status_code response)%Z ->
   exists e,
     send path rc s = (Raise (ClientResponseErr e), s') /\
     message e = "Response error. Status code:" ++ Str.of_int (status_code response) /\
     cre_url e = Some (url response) /\
     cre_status e = Some (status_code response) /\
     original_error e = None /\
     (forall j, response_json response = Some j -> cre_data e = Some j) /\
     (response_json response = None -> cre_data e = Some JNone)) /\
  ((status_code response < 400)%Z ->
   forall j, response_json response = Some j -> send path rc s = (Ret j, s')).
Proof.
  intros E. unfold send, bind. rewrite E. split.
  - intros Hst. apply Z.leb_le in Hst. rewrite Hst.
    eexists. split; [reflexivity|]. cbn.
    repeat split; try reflexivity.
    + intros j ->. reflexivity.
    + intros ->. reflexivity.
  - intros Hst j Hj. apply Z.leb_gt in Hst. rewrite Hst, Hj. reflexivity.
Qed.

(** C5: when the body of the response does not decode, [send] returns
  [None] for a status below 400, and for a status of 400 and more the
  ClientResponseError of that status carries [None] as data: the same
  absent payload, and no other exception. *)
Theorem send_undecodable path rc s response s' :
  _send path rc s = (Ret response, s') ->
  response_json response = None ->
  ((status_code response < 400)%Z -> send path rc s = (Ret JNone, s')) /\
  ((400 <= status_code response)%Z ->
   send path rc s =
     (Raise (ClientResponseErr
               (mkClientResponseError
                  ("Response error. Status code:" ++ Str.of_int (status_code response))
                  (Some (url response)) (Some (status_code response))
                  (Some JNone) None)),
      s')).
Proof.
  intros E Hj. unfold send, bind. rewrite E, Hj. split; intros Hst.
  - apply Z.leb_gt in Hst. rewrite Hst. reflexivity.
  - apply Z.leb_le in Hst. rewrite Hst. reflexivity.
Qed.

(** C4: when the engine, called with the request [_send] computed, raises
  [e], then [_send] raises the ClientResponseError that wraps [e], with a
  message ending in [str(e)] and no url, status or data; the state is the
  one that single engine call left; [send] and [send_raw] raise the same
  error. *)
Theorem send_transport_failure path rc s r s' e w :
  _send_request path rc s = (Ret r, s') ->
  request r (heap s') (world s') = (inr e, w) ->
  _send path rc s = (Raise (transport_error e), mkState (client s') (heap s') w) /\
  send path rc s = (Raise (transport_error e), mkState (client s') (heap s') w) /\
  send_raw path rc s = (Raise (transport_error e), mkState (client s') (heap s') w).
Proof.
  intros E Hreq.
  assert (Hs : _send path rc s =
               (Raise (transport_error e), mkState (client s') (heap s') w)).
  { rewrite (send_of_request _ _ _ _ _ E). unfold try_request.
    rewrite Hreq. reflexivity. }
  split; [exact Hs|].
  unfold send, send_raw, bind. rewrite Hs. split; reflexivity.
Qed.

(** C9: when the engine, called with the request [_send] computed, returns
  a response, [send_raw] returns its content, whatever the status code. *)
Theorem send_raw_content path rc s r s' response w :
  _send_request path rc s = (Ret r, s') ->
  request r (heap s') (world s') = (inl response, w) ->
  send_raw path rc s = (Ret (content response), mkState (client s') (heap s') w).
Proof.
  intros E Hreq. unfold send_raw, bind.
  rewrite (send_of_request _ _ _ _ _ E). unfold try_request.
  rewrite Hreq. reflexivity.
Qed.

(** *** The frame of a dispatch *)

Lemma frame_refl s : frame s s.
Proof. split; [reflexivity | auto]. Qed.

Lemma frame_trans s1 s2 s3 : frame s1 s2 -> frame s2 s3 -> frame s1 s3.
Proof.
  intros [Hc1 Hh1] [Hc2 Hh2]. split; [congruence | auto].
Qed.

Lemma preserves_ret {A} (a : A) : preserves (ret a).
Proof. intros s r s' [= _ <-]. apply frame_refl. Qed.

Lemma preserves_raise {A} (e : exn) : preserves (@raise _ _ A e).
Proof. intros s r s' [= _ <-]. apply frame_refl. Qed.

Lemma preserves_bind {A B} (m : M A) (k : A -> M B) :
  preserves m -> (forall a, preserves (k a)) -> preserves (bind m k).
Proof.
  intros Hm Hk s r s'. unfold bind.
  destruct (m s) as [[a|e] s1] eqn:E1.
  - intros E2. exact (frame_trans _ _ _ (Hm _ _ _ E1) (Hk a _ _ _ E2)).
  - intros [= _ <-]. exact (Hm _ _ _ E1).
Qed.

Lemma preserves_get_self : preserves get_self.
Proof. intros s r s' [= _ <-]. apply frame_refl. Qed.

Lemma preserves_get_heap : preserves get_heap.
Proof. intros s r s' [= _ <-]. apply frame_refl. Qed.

Lemma preserves_alloc_dict d : preserves (alloc (ODict d)).
Proof.
  intros s r s' [= _ <-]. split; [reflexivity|]. cbn [heap].
  intros l id Hl. rewrite lookup_insert_ne; [exact Hl|].
  intros Heq. symmetry in Heq. revert Heq. apply fresh_not_mapped with (ORecordService id).
  exact Hl.
Qed.

Lemma preserves_py_in k v : preserves (py_in k v).
Proof.
  unfold py_in. apply preserves_bind; [apply preserves_get_heap|]. intros h.
  destruct v as [| | | | |l];
    try apply preserves_raise; try apply preserves_ret.
  destruct (h !! l) as [[d|]|];
    try apply preserves_raise; apply preserves_ret.
Qed.

Lemma preserves_config_update config rc : preserves (config_update config rc).
Proof.
  unfold config_update. apply preserves_bind; [apply preserves_get_heap|]. intros h.
  destruct rc as [| | |str|f|l]; try apply preserves_raise.
  - destruct (String.eqb str ""); [apply preserves_ret | apply preserves_raise].
  - destruct (h !! l) as [[d|]|];
      try apply preserves_raise; apply preserves_ret.
Qed.

(** [update] writes a dict over a dict: no RecordService is touched. *)
Lemma preserves_py_update v e : preserves (py_update v e).
Proof.
  unfold py_update, bind, get_heap. intros s r s'.
  destruct v as [| | | | |l]; try (intros [= _ <-]; apply frame_refl).
  destruct (heap s !! l) as [[d|]|] eqn:El;
    try (intros [= _ <-]; apply frame_refl).
  intros [= _ <-]. split; [reflexivity|]. cbn [heap].
  intros l' id Hl'. rewrite lookup_insert_ne; [exact Hl' | congruence].
Qed.

Lemma preserves_try_request r : preserves (try_request r).
Proof.
  intros s res s'. unfold try_request.
  destruct (request r (heap s) (world s)) as [[resp|e] w];
    intros [= _ <-]; (split; [reflexivity | auto]).
Qed.

Lemma preserves_send_request path rc : preserves (_send_request path rc).
Proof.
  unfold _send_request.
  apply preserves_bind; [apply preserves_config_update | intros config].
  apply preserves_bind; [apply preserves_get_self | intros self].
  apply preserves_bind.
  { destruct (token_truthy _); [|apply preserves_ret].
    destruct (Dict.get config "headers"); [|apply preserves_ret].
    apply preserves_bind; [apply preserves_py_in | intros b; apply preserves_ret]. }
  intros inject. apply preserves_bind.
  { destruct inject; [|apply preserves_ret].
    apply preserves_bind.
    - destruct (Dict.get config "headers"); [apply preserves_ret|].
      apply preserves_bind; [apply preserves_alloc_dict | intros l; apply preserves_ret].
    - intros hs. apply preserves_bind; [apply preserves_py_update|].
      intros _. apply preserves_ret. }
  intros config'.
  apply preserves_bind; [apply preserves_get_heap | intros h; apply preserves_ret].
Qed.

Lemma preserves_send_ path rc : preserves (_send path rc).
Proof.
  unfold _send. apply preserves_bind;
    [apply preserves_send_request | intros r; apply preserves_try_request].
Qed.

(** Whatever the config, and whether it returns or raises, [send] leaves
  the client, its AuthStore and cache included, and every RecordService as
  they were. *)
Lemma preserves_send path rc : preserves (send path rc).
Proof.
  unfold send. apply preserves_bind; [apply preserves_send_|].
  intros response. destruct (400 <=? status_code response)%Z;
    [apply preserves_raise | apply preserves_ret].
Qed.

Lemma preserves_send_raw path rc : preserves (send_raw path rc).
Proof.
  unfold send_raw. apply preserves_bind; [apply preserves_send_|].
  intros response. apply preserves_ret.
Qed.

(** *** What a dispatch does to the heap, for every input *)

Lemma dict_gains_refl (o : obj) : dict_gains o o.
Proof. left. reflexivity. Qed.

Lemma dispatch_step_refl s : dispatch_step s s.
Proof. split; [reflexivity|]. intros l o Hl. exists o. split; [exact Hl | left; reflexivity]. Qed.

Lemma config_update_state config rc s r s' :
  config_update config rc s = (r, s') -> s' = s.
Proof.
  unfold config_update, bind, get_heap.
  destruct rc as [| | |str|f|l]; try (intros [= _ <-]; reflexivity).
  - destruct (String.eqb str ""); intros [= _ <-]; reflexivity.
  - destruct (heap s !! l) as [[d|]|]; intros [= _ <-]; reflexivity.
Qed.

(** [k in v] leaves the state alone; when it is false, [v] is a str or a
  dict without the key. *)
Lemma py_in_false k v s r s' :
  py_in k v s = (r, s') ->
  s' = s /\
  (r = Ret false ->
   (exists str, v = PyStr str) \/
   (exists l d, v = PyRef l /\ heap s !! l = Some (ODict d) /\ Dict.mem d k = false)).
Proof.
  unfold py_in, bind, get_heap.
  destruct v as [| | |str|f|l];
    try (intros [= <- <-]; split; [reflexivity | discriminate]).
  - intros [= <- <-]. split; [reflexivity|]. intros _. left. eauto.
  - destruct (heap s !! l) as [[d|]|] eqn:El;
      try (intros [= <- <-]; split; [reflexivity | discriminate]).
    intros [= <- <-]. split; [reflexivity|]. intros [= Hm]. right. eauto.
Qed.

Lemma send_request_step path rc s r s' :
  _send_request path rc s = (r, s') -> dispatch_step s s'.
Proof.
  unfold _send_request, bind at 1.
  destruct (config_update _ rc s) as [[config|e] s1] eqn:E1;
    apply config_update_state in E1 as ->;
    [|intros [= _ <-]; apply dispatch_step_refl].
  unfold bind at 1. unfold get_self at 1. unfold bind at 1.
  destruct (token_truthy (token (auth_store (client s)))) eqn:Etok.
  2: { unfold ret, bind, get_heap. intros [= _ <-]. apply dispatch_step_refl. }
  destruct (Dict.get config "headers") as [hs|] eqn:Ehs.
  - unfold bind at 1.
    destruct (py_in "Authorization" hs s) as [[b|e] s1] eqn:Ein;
      apply py_in_false in Ein as [-> Hfalse];
      [|intros [= _ <-]; apply dispatch_step_refl].
    destruct b; unfold ret at 1; cbn [negb].
    { unfold ret, bind, get_heap. intros [= _ <-]. apply dispatch_step_refl. }
    destruct (Hfalse eq_refl) as [(str & ->) | (l & d & -> & Hl & Hmem)].
    + unfold py_update, get_heap, raise, ret. unfold bind.
      intros [= _ <-]. apply dispatch_step_refl.
    + unfold py_update, get_heap, set_heap, ret. unfold bind. rewrite Hl.
      intros [= _ <-]. split; [reflexivity|]. cbn [heap].
      intros l' o Hl'. destruct (decide (l = l')) as [<-|Hne].
      * rewrite lookup_insert_eq. eexists. split; [reflexivity|].
        right. exists d, (match token (auth_store (client s)) with
                          | Some t => PyStr t
                          | None => PyNone
                          end).
        rewrite Hl in Hl'. injection Hl' as <-.
        assert (Hget : Dict.get d "Authorization" = None).
        { unfold Dict.mem in Hmem. destruct (Dict.get d "Authorization");
            [discriminate | reflexivity]. }
        split; [reflexivity|]. split; [exact Hget|]. split.
        -- intros l0 Heq. destruct (token (auth_store (client s)));
             discriminate Heq.
        -- unfold Dict.update. cbn [fold_left fst snd].
           rewrite dict_set_fresh; [reflexivity|]. apply dict_get_None. exact Hget.
      * rewrite lookup_insert_ne by exact Hne. exists o. split; [exact Hl' | left; reflexivity].
  - unfold ret at 1. unfold alloc, py_update, get_heap, set_heap, ret.
    unfold bind. cbn [heap client world]. rewrite lookup_insert_eq.
    intros [= _ <-]. split; [reflexivity|]. cbn [heap].
    intros l' o Hl'. rewrite insert_insert_eq, lookup_insert_ne.
    + exists o. split; [exact Hl' | left; reflexivity].
    + intros Heq. symmetry in Heq. revert Heq. apply fresh_not_mapped with o. exact Hl'.
Qed.

Lemma try_request_step r s : dispatch_step s (try_request r s).2.
Proof.
  unfold try_request.
  destruct (request r (heap s) (world s)) as [[resp|e] w]; cbn;
    (split; [reflexivity|]; intros l o Hl; exists o; split;
     [exact Hl | left; reflexivity]).
Qed.

(** Whatever the config, and whether it returns or raises, a dispatch
  leaves the client as it was and every object as it was, but for an
  "Authorization" entry added to a dict that had none. *)
Lemma send_step_ path rc s : dispatch_step s (_send path rc s).2.
Proof.
  unfold _send, bind.
  destruct (_send_request path rc s) as [[r|e] s1] eqn:E;
    pose proof (send_request_step _ _ _ _ _ E) as Hstep; [|exact Hstep].
  destruct (try_request_step r s1) as [Hc Hh].
  destruct Hstep as [Hc1 Hh1]. split; [congruence|].
  intros l o Hl. destruct (Hh1 l o Hl) as (o1 & Hl1 & Hg1).
  destruct (Hh l o1 Hl1) as (o2 & Hl2 & Hg2). exists o2. split; [exact Hl2|].
  unfold try_request in Hl2, Hl1.
  destruct (request r (heap s1) (world s1)) as [[resp|e] w]; cbn in Hl2;
    rewrite Hl1 in Hl2; injection Hl2 as <-; exact Hg1.
Qed.

Lemma send_step path rc s : dispatch_step s (send path rc s).2.
Proof.
  pose proof (send_step_ path rc s) as Hstep. unfold send, bind.
  destruct (_send path rc s) as [[response|e] s1]; [|exact Hstep].
  destruct (400 <=? status_code response)%Z; exact Hstep.
Qed.

(** *** The cache of RecordServices *)

Lemma dict_get_app_one (d : dict pyval) a x id :
  Dict.get (d ++ [(a, x)])%list id =
  match Dict.get d id with
  | Some v => Some v
  | None => if String.eqb a id then Some x else None
  end.
Proof.
  induction d as [|[k v] d IH]; [reflexivity|].
  change (((k, v) :: d) ++ [(a, x)])%list with ((k, v) :: (d ++ [(a, x)]))%list.
  rewrite !dict_get_cons. destruct (String.eqb k id); [reflexivity | exact IH].
Qed.

Lemma cache_of_dict s d :
  as_dict (heap s) (PyRef (record_service (client s))) = Some d -> cache_of s = d.
Proof. unfold cache_of. intros ->. reflexivity. Qed.

Lemma cache_grows_refl s : cache_grows s s.
Proof. intros id l Hl. exact Hl. Qed.

Lemma cache_grows_trans s1 s2 s3 :
  cache_grows s1 s2 -> cache_grows s2 s3 -> cache_grows s1 s3.
Proof. intros H12 H23 id l Hl. auto. Qed.

(** A RecordService is no dict: a dispatch leaves it as it is. *)
Lemma dispatch_step_service s s' l id :
  dispatch_step s s' ->
  heap s !! l = Some (ORecordService id) ->
  heap s' !! l = Some (ORecordService id).
Proof.
  intros [_ Hh] Hl. destruct (Hh l _ Hl) as (o' & Hl' & [-> | (d & v & Ho & _)]);
    [exact Hl' | discriminate Ho].
Qed.

(** A dispatch keeps the soundness of the cache and all its entries. *)
Lemma dispatch_cache s s' :
  dispatch_step s s' -> cache_sound s -> cache_sound s' /\ cache_grows s s'.
Proof.
  intros Hstep [[d Hd] Hs]. pose proof Hstep as [Hc Hh].
  pose proof Hd as (c & [= <-] & Hlc)%as_dict_Some.
  rewrite (cache_of_dict _ _ Hd) in Hs.
  destruct (Hh _ _ Hlc) as (o' & Hl' & Hg).
  assert (Hkeep : forall id v,
            Dict.get d id = Some v ->
            (exists l, v = PyRef l /\ heap s' !! l = Some (ORecordService id)) \/
            (id = "Authorization" /\ forall l, v <> PyRef l)).
  { intros id v Hv. destruct (Hs id v Hv) as [(l & -> & Hl) | Hauth];
      [left | right; exact Hauth].
    exists l. split; [reflexivity|]. exact (dispatch_step_service _ _ _ _ Hstep Hl). }
  destruct Hg as [-> | (d0 & v & [= <-] & Hnone & Hv & ->)].
  - assert (Hd' : as_dict (heap s') (PyRef (record_service (client s'))) = Some d)
      by (rewrite Hc; cbn; rewrite Hl'; reflexivity).
    split; [split; [eauto|] |]; unfold cache_grows;
      rewrite (cache_of_dict _ _ Hd'), ?(cache_of_dict _ _ Hd); auto.
  - assert (Hd' : as_dict (heap s') (PyRef (record_service (client s'))) =
                  Some (d ++ [("Authorization", v)])%list)
      by (rewrite Hc; cbn; rewrite Hl'; reflexivity).
    split; [split; [eauto|] |]; unfold cache_grows;
      rewrite (cache_of_dict _ _ Hd'), ?(cache_of_dict _ _ Hd).
    + intros id x. rewrite dict_get_app_one.
      destruct (Dict.get d id) as [y|] eqn:Ey.
      * intros [= <-]. exact (Hkeep id y Ey).
      * destruct (String.eqb_spec "Authorization" id) as [<-|]; [|discriminate].
        intros [= <-]. right. split; [reflexivity | exact Hv].
    + intros id x Hx. rewrite dict_get_app_one, Hx. reflexivity.
Qed.

(** One call of [collection], on a cache that is the dict [d]. *)
Lemma collection_state a s d :
  as_dict (heap s) (PyRef (record_service (client s))) = Some d ->
  collection a s =
  match Dict.get d a with
  | Some v => (Ret v, s)
  | None =>
      let l := fresh (used s) in
      (Ret (PyRef l),
       mkState (client s)
               (<[record_service (client s) := ODict (d ++ [(a, PyRef l)])%list]>
                  (<[l := ORecordService a]> (heap s)))
               (world s))
  end.
Proof.
  intros Hd. pose proof Hd as (c & [= <-] & Hlc)%as_dict_Some.
  unfold collection, bind at 1. unfold get_self at 1. unfold bind at 1.
  rewrite (py_in_dict _ _ _ _ Hd). unfold Dict.mem.
  destruct (Dict.get d a) as [v|] eqn:Ea; cbn [negb].
  - unfold py_getitem, get_self, get_heap, ret. unfold bind.
    cbn [client heap]. rewrite Hlc, Ea. reflexivity.
  - unfold alloc, py_setitem, py_getitem, get_self, get_heap, set_heap, ret.
    unfold bind. cbn [client heap world].
    assert (Hne : fresh (used s) <> record_service (client s)).
    { intros Heq. symmetry in Heq. revert Heq.
      apply fresh_not_mapped with (ODict d). exact Hlc. }
    rewrite lookup_insert_ne by exact Hne. rewrite Hlc.
    cbn [client heap world]. rewrite lookup_insert_eq.
    rewrite dict_get_set_eq.
    rewrite dict_set_fresh by (apply dict_get_None; exact Ea). reflexivity.
Qed.

(** One call of [collection] on a sound cache returns; the result is the
  cached entry of the identifier afterwards, and no entry was lost. *)
Lemma collection_call s a :
  cache_sound s ->
  exists l s',
    collection a s = (Ret l, s') /\
    cache_sound s' /\ cache_grows s s' /\
    Dict.get (cache_of s') a = Some l.
Proof.
  intros [[d Hd] Hs]. pose proof Hd as (c & [= <-] & Hlc)%as_dict_Some.
  rewrite (collection_state a s d Hd).
  pose proof Hs as Hs0. rewrite (cache_of_dict _ _ Hd) in Hs.
  destruct (Dict.get d a) as [v|] eqn:Ea.
  - exists v, s. split; [reflexivity|]. split; [split; eauto|].
    split; [apply cache_grows_refl|]. rewrite (cache_of_dict _ _ Hd). exact Ea.
  - cbv zeta. eexists _, _. split; [reflexivity|].
    set (l := fresh (used s)).
    set (s' := mkState _ _ _).
    assert (Hd' : as_dict (heap s') (PyRef (record_service (client s'))) =
                  Some (d ++ [(a, PyRef l)])%list)
      by (cbn; rewrite lookup_insert_eq; reflexivity).
    assert (Hlc' : l <> record_service (client s)).
    { intros Heq. symmetry in Heq. revert Heq.
      apply fresh_not_mapped with (ODict d). exact Hlc. }
    split; [split; [eauto|] | split]; unfold cache_grows;
      rewrite ?(cache_of_dict _ _ Hd'), ?(cache_of_dict _ _ Hd).
    + intros id x. rewrite dict_get_app_one.
      destruct (Dict.get d id) as [y|] eqn:Ey.
      * intros [= <-]. destruct (Hs id y Ey) as [(l0 & -> & Hl0) | Hauth];
          [left | right; exact Hauth].
        exists l0. split; [reflexivity|]. cbn [heap s'].
        rewrite lookup_insert_ne by congruence.
        rewrite lookup_insert_ne; [exact Hl0|].
        intros Heq. symmetry in Heq. revert Heq.
        apply fresh_not_mapped with (ORecordService id). exact Hl0.
      * destruct (String.eqb_spec a id) as [<-|]; [|discriminate].
        intros [= <-]. left. exists l. split; [reflexivity|]. cbn [heap s'].
        rewrite lookup_insert_ne by congruence. apply lookup_insert_eq.
    + intros id x Hx. rewrite dict_get_app_one, Hx. reflexivity.
    + rewrite dict_get_app_one, Ea, String.eqb_refl. reflexivity.
Qed.

Lemma run_call_cache c s :
  cache_sound s ->
  cache_sound (run_call c s).2 /\ cache_grows s (run_call c s).2 /\
  forall a, c = Collection a ->
            exists l, (run_call c s).1 = Some l /\
                      Dict.get (cache_of (run_call c s).2) a = Some l.
Proof.
  intros Hs. destruct c as [a|path rc]; simpl.
  - destruct (collection_call s a Hs) as (l & s' & -> & Hs' & Hg & Hl). simpl.
    split; [exact Hs'|]. split; [exact Hg|].
    intros ? [= <-]. eauto.
  - destruct (dispatch_cache s _ (send_step path rc s) Hs) as [Hs' Hg].
    split; [exact Hs'|]. split; [exact Hg|]. discriminate.
Qed.

Lemma run_cons c cs s :
  run (c :: cs) s =
  ((run_call c s).1 :: (run cs (run_call c s).2).1, (run cs (run_call c s).2).2).
Proof.
  simpl. destruct (run_call c s) as [r s1]. simpl.
  destruct (run cs s1) as [rs s2]. reflexivity.
Qed.

Lemma run_cache cs s :
  cache_sound s ->
  cache_sound (run cs s).2 /\ cache_grows s (run cs s).2 /\
  forall i a, cs !! i = Some (Collection a) ->
              exists l, (run cs s).1 !! i = Some (Some l) /\
                        Dict.get (cache_of (run cs s).2) a = Some l.
Proof.
  revert s. induction cs as [|c cs IH]; intros s Hs.
  - simpl. split; [exact Hs|]. split; [apply cache_grows_refl|].
    intros i a Hi. rewrite lookup_nil in Hi. discriminate.
  - rewrite run_cons. cbn [fst snd].
    destruct (run_call_cache c s Hs) as (Hs1 & Hg1 & Hc).
    destruct (IH _ Hs1) as (Hs2 & Hg2 & Hcs).
    split; [exact Hs2|]. split; [exact (cache_grows_trans _ _ _ Hg1 Hg2)|].
    intros [|i] a Hi; simpl in Hi.
    + injection Hi as ->. destruct (Hc a eq_refl) as (l & Hr & Hl).
      exists l. split; [rewrite Hr; reflexivity | exact (Hg2 _ _ Hl)].
    + exact (Hcs i a Hi).
Qed.


(** The cache of a new client is an empty dict, hence sound. *)
Lemma cache_sound_init s :
  as_dict (heap s) (PyRef (record_service (client s))) = Some [] ->
  cache_sound s.
Proof.
  intros E. split; [eauto|]. intros id l. rewrite (cache_of_dict _ _ E).
  discriminate.
Qed.

(** The state [__init__] leaves, on any heap and in any world, has a sound
  cache. *)
Lemma Client_init_sound b l a t f h (w : World) :
  cache_sound (mkState (Client_init b l a t f h).1 (Client_init b l a t f h).2 w).
Proof.
  apply cache_sound_init. cbn. rewrite lookup_insert_eq. reflexivity.
Qed.

End DispatcherFacts.

(** ** Further facts: edge cases, frames and compositions *)

Section MoreFacts.
Context `{HttpEngine}.
Implicit Types (s : State) (cfg config d : dict pyval) (h : gmap loc obj).
Implicit Types (rc hs : pyval) (path k : string).

(** *** [build_url] *)

Lemma append_nil_r (a : string) : a ++ "" = a.
Proof.
  induction a as [|x a IH]; [reflexivity|].
  change (String x (a ++ "") = String x a). rewrite IH. reflexivity.
Qed.

Lemma prefix_app (a b : string) : String.prefix a (a ++ b) = true.
Proof.
  induction a as [|x a IH]; [destruct b; reflexivity|].
  change (String.prefix (String x a) (String x (a ++ b)) = true).
  simpl. destruct (ascii_dec x x) as [_|n]; [exact IH | contradiction].
Qed.

(** The URL for the empty path: the base, with a "/" added when it has none
  at its end. *)
Lemma build_url_empty self :
  build_url self "" =
  if Str.endswith (base_url self) "/" then base_url self else base_url self ++ "/".
Proof.
  unfold build_url. change (Str.startswith "" "/") with false. cbv iota.
  destruct (Str.endswith (base_url self) "/"); simpl negb; cbv iota;
    apply append_nil_r.
Qed.

Lemma build_url_empty_slash self : Str.endswith (build_url self "") "/" = true.
Proof.
  rewrite build_url_empty.
  destruct (Str.endswith (base_url self) "/") eqn:E; [exact E | apply endswith_app].
Qed.

(** X1: the base URL is a prefix of every URL built from it: [build_url]
  never rewrites, trims or encodes the base. *)
Theorem build_url_keeps_base (self : Client) (path : string) :
  String.prefix (base_url self) (build_url self path) = true.
Proof.
  unfold build_url.
  destruct (negb (Str.endswith (base_url self) "/")).
  - rewrite append_assoc. apply prefix_app.
  - apply prefix_app.
Qed.

(** X2: the URL of the empty path ends with "/", and every URL is that one
  followed by the path: by the whole path when it does not start with "/",
  and by all of it but its first character when it does, so that of
  several leading slashes only one is dropped. *)
Theorem build_url_root (self : Client) (p : string) :
  Str.endswith (build_url self "") "/" = true /\
  build_url self ("/" ++ p) = build_url self "" ++ p /\
  (Str.startswith p "/" = false -> build_url self p = build_url self "" ++ p).
Proof.
  split; [apply build_url_empty_slash|].
  rewrite build_url_empty. unfold build_url.
  destruct (Str.endswith (base_url self) "/") eqn:E; simpl negb; cbv iota.
  - split.
    + change ("/" ++ p) with (String "/" p). rewrite startswith_cons. reflexivity.
    + intros ->. reflexivity.
  - split.
    + change ("/" ++ p) with (String "/" p). rewrite startswith_cons. reflexivity.
    + intros ->. reflexivity.
Qed.

(** X3: a client whose base is the URL another client builds for the empty
  path builds the same URLs as that client: ending the base with "/"
  changes nothing. *)
Theorem build_url_normal_base (self self' : Client) (path : string) :
  base_url self' = build_url self "" ->
  build_url self' path = build_url self path.
Proof.
  intros Hb. unfold build_url at 1. rewrite Hb.
  rewrite build_url_empty_slash. simpl negb. cbv iota.
  rewrite build_url_empty. unfold build_url.
  destruct (Str.endswith (base_url self) "/"); reflexivity.
Qed.

(** *** The arguments [_send] passes on *)

Lemma request_of_fields c path config h :
  req_url (request_of c path config h) = build_url c path /\
  req_method (request_of c path config h) =
    default (PyStr "GET") (Dict.get config "method") /\
  req_params (request_of c path config h) =
    default PyNone (Dict.get config "params") /\
  req_timeout (request_of c path config h) = timeout c.
Proof.
  unfold request_of.
  destruct (body_loop _) as [data files].
  destruct (0 <? List.length files)%nat; repeat split; reflexivity.
Qed.

Lemma merged_method cfg :
  Dict.wf cfg ->
  Dict.get (merged cfg) "method" =
  Some (default (PyStr "GET") (Dict.get cfg "method")).
Proof.
  intros Hwf. unfold merged. rewrite dict_get_update by exact Hwf.
  destruct (Dict.get cfg "method"); reflexivity.
Qed.

(** The local [config] at the end: the merged one, but for its headers. *)
Lemma send_request_config path rc s cfg :
  as_dict (heap s) rc = Some cfg ->
  Dict.wf cfg ->
  (forall hs, Dict.get cfg "headers" = Some hs -> is_Some (as_dict (heap s) hs)) ->
  exists config' s',
    _send_request path rc s =
      (Ret (request_of (client s) path config' (heap s')), s') /\
    client s' = client s /\ world s' = world s /\
    (forall k, k <> "headers" -> Dict.get config' k = Dict.get (merged cfg) k).
Proof.
  intros Hrc Hwf Hty.
  assert (Hhdr : Dict.get (merged cfg) "headers" = Dict.get cfg "headers")
    by (apply merged_get; [exact Hwf | discriminate]).
  destruct (token_truthy_cases (token (auth_store (client s))))
    as [Htok | (t & Htok & Ht)].
  { exists (merged cfg), s. split; [|auto].
    apply send_request_plain with (cfg := cfg); auto. }
  destruct (Dict.get cfg "headers") as [hs|] eqn:Ehs.
  - destruct (Hty hs eq_refl) as [d Hd].
    destruct (Dict.mem d "Authorization") eqn:Emem.
    + exists (merged cfg), s. split; [|auto].
      apply send_request_plain with (cfg := cfg); [exact Hrc|].
      right. exists hs, d. auto.
    + pose proof Hd as (l & -> & Hl)%as_dict_Some.
      exists (Dict.set (merged cfg) "headers" (PyRef l)),
        (mkState (client s)
           (<[l := ODict (Dict.set d "Authorization" (PyStr t))]> (heap s))
           (world s)).
      split; [apply (send_request_inject path rc s cfg l d t); auto|].
      cbn [client world]. repeat split.
      intros k Hk. apply dict_get_set_ne. congruence.
  - exists (Dict.set (merged cfg) "headers" (PyRef (fresh (used s)))),
      (mkState (client s)
         (<[fresh (used s) := ODict [("Authorization", PyStr t)]]> (heap s))
         (world s)).
    split; [apply (send_request_fresh path rc s cfg t); auto|].
    cbn [client world]. repeat split.
    intros k Hk. apply dict_get_set_ne. congruence.
Qed.

(** X4: for a config that is a dict whose headers, if any, are a dict, the
  engine's [request] is called with the URL [build_url] gives for the
  path, with the client's timeout, with the caller's "params" entry
  ([None] without one) and with the caller's "method" entry whatever its
  value; "GET" is used only when the config has no "method" key.  [_send]
  ends as that call of [request] ends. *)
Theorem send_request_fields path rc s cfg :
  as_dict (heap s) rc = Some cfg ->
  Dict.wf cfg ->
  (forall hs, Dict.get cfg "headers" = Some hs -> is_Some (as_dict (heap s) hs)) ->
  exists r s',
    calls_engine path rc s r s' /\
    req_url r = build_url (client s) path /\
    req_timeout r = timeout (client s) /\
    req_params r = default PyNone (Dict.get cfg "params") /\
    req_method r = default (PyStr "GET") (Dict.get cfg "method").
Proof.
  intros Hrc Hwf Hty.
  destruct (send_request_config path rc s cfg Hrc Hwf Hty)
    as (config' & s' & E & _ & Hw & Hk).
  destruct (request_of_fields (client s) path config' (heap s'))
    as (Hu & Hm & Hp & Ht).
  eexists _, s'. split; [apply calls_engine_intro; [exact E | exact Hw]|].
  split; [exact Hu|]. split; [exact Ht|]. split.
  - rewrite Hp, Hk by discriminate.
    rewrite merged_get; [reflexivity | exact Hwf | discriminate].
  - rewrite Hm, Hk by discriminate. rewrite merged_method by exact Hwf.
    reflexivity.
Qed.

(** *** What becomes of the caller's headers, config and body *)

(** X5: with a non-empty token [t] and a headers dict [d] without
  "Authorization", the engine's [request] is called with headers that
  are the entries of [d], all of them and in their order, followed by the
  Authorization entry; [_send] ends as that call ends. *)
Theorem send_headers_appended path rc s cfg hs d t :
  as_dict (heap s) rc = Some cfg ->
  Dict.wf cfg ->
  token (auth_store (client s)) = Some t -> t <> "" ->
  Dict.get cfg "headers" = Some hs ->
  as_dict (heap s) hs = Some d ->
  Dict.get d "Authorization" = None ->
  exists r s',
    calls_engine path rc s r s' /\
    as_dict (heap s') (req_headers r) =
      Some (d ++ [("Authorization", PyStr t)])%list.
Proof.
  intros Hrc Hwf Htok Ht Hhs Hd Hget.
  assert (Hhdr : Dict.get (merged cfg) "headers" = Some hs)
    by (rewrite merged_get; [exact Hhs | exact Hwf | discriminate]).
  pose proof Hd as (l & -> & Hl)%as_dict_Some.
  pose proof (send_request_inject path rc s cfg l d t Hrc Htok Ht Hhdr Hl
                (dict_mem_false _ _ Hget)) as E.
  cbv zeta in E. apply calls_engine_intro in E; [|reflexivity].
  eexists _, _. split; [exact E|].
  rewrite request_of_headers, dict_get_set_eq.
  cbn [from_option id heap as_dict]. rewrite lookup_insert_eq.
  rewrite dict_set_fresh; [reflexivity|]. apply dict_get_None. exact Hget.
Qed.

(** A location a dict of the heap refers to is in use. *)
Lemma used_referred s l0 d k l :
  heap s !! l0 = Some (ODict d) ->
  Dict.get d k = Some (PyRef l) ->
  l ∈ used s.
Proof.
  intros Hl0 Hk. unfold used, heap_locs.
  apply elem_of_union_l, elem_of_union_r.
  apply elem_of_union_list. exists (obj_locs (ODict d)). split.
  - apply list_elem_of_fmap. exists (ODict d). split; [reflexivity|].
    apply list_elem_of_fmap. exists (l0, ODict d). split; [reflexivity|].
    apply elem_of_map_to_list. exact Hl0.
  - cbn [obj_locs]. apply elem_of_union_list. exists (val_locs (PyRef l)).
    split; [|cbn; apply elem_of_singleton; reflexivity].
    apply list_elem_of_fmap. exists (PyRef l). split; [reflexivity|].
    clear Hl0. induction d as [|[k' v'] d IH]; [discriminate|].
    rewrite dict_get_cons in Hk. cbn.
    destruct (String.eqb k' k).
    + injection Hk as ->. left.
    + right. apply IH. exact Hk.
Qed.

(** X6: with a non-empty token [t] and a config without headers, the
  engine's [request] is called with a dict made for this call: it is at a
  location that no object of the heap has and that no dict of the heap
  nor the client refers to, it holds the Authorization entry alone, and
  the heap is otherwise the caller's.  [_send] ends as that call ends. *)
Theorem send_headers_new path rc s cfg t :
  as_dict (heap s) rc = Some cfg ->
  Dict.wf cfg ->
  token (auth_store (client s)) = Some t -> t <> "" ->
  Dict.get cfg "headers" = None ->
  exists r s' l,
    calls_engine path rc s r s' /\
    req_headers r = PyRef l /\
    (l ∉ used s) /\
    heap s !! l = None /\
    (forall l0 d k, heap s !! l0 = Some (ODict d) ->
                    Dict.get d k <> Some (PyRef l)) /\
    heap s' = <[l := ODict [("Authorization", PyStr t)]]> (heap s) /\
    client s' = client s.
Proof.
  intros Hrc Hwf Htok Ht Hnone.
  assert (Hhdr : Dict.get (merged cfg) "headers" = None)
    by (rewrite merged_get; [exact Hnone | exact Hwf | discriminate]).
  pose proof (send_request_fresh path rc s cfg t Hrc Htok Ht Hhdr) as E.
  cbv zeta in E. apply calls_engine_intro in E; [|reflexivity].
  eexists _, _, (fresh (used s)). split; [exact E|].
  rewrite request_of_headers, dict_get_set_eq. cbn [from_option id heap client].
  split; [reflexivity|]. split; [apply is_fresh|].
  split; [|split; [|split; reflexivity]].
  - destruct (heap s !! fresh (used s)) as [o|] eqn:El; [|reflexivity].
    exfalso. exact (fresh_not_mapped _ _ _ El eq_refl).
  - intros l0 d k Hl0 Hk. apply (is_fresh (used s)).
    exact (used_referred _ _ _ _ _ Hl0 Hk).
Qed.

Lemma raise_through path rc s e s' :
  _send_request path rc s = (Raise e, s') ->
  _send path rc s = (Raise e, s') /\
  send path rc s = (Raise e, s') /\
  send_raw path rc s = (Raise e, s').
Proof.
  intros E. unfold send, send_raw, _send, bind. rewrite E. auto.
Qed.

(** X7: a logged-in client given a config whose "headers" entry is [None],
  a bool or an int raises [TypeError] from the membership test, before the
  engine is called and with the state untouched, in [_send], [send] and
  [send_raw] alike. *)
Theorem send_scalar_headers path rc s cfg hs :
  as_dict (heap s) rc = Some cfg ->
  Dict.wf cfg ->
  token_truthy (token (auth_store (client s))) = true ->
  Dict.get cfg "headers" = Some hs ->
  is_scalar hs = true ->
  _send path rc s = (Raise TypeError, s) /\
  send path rc s = (Raise TypeError, s) /\
  send_raw path rc s = (Raise TypeError, s).
Proof.
  intros Hrc Hwf Htok Hhs Hsc. apply raise_through.
  assert (Hhdr : Dict.get (merged cfg) "headers" = Some hs)
    by (rewrite merged_get; [exact Hhs | exact Hwf | discriminate]).
  unfold _send_request, bind at 1.
  rewrite (config_update_dict _ _ _ _ Hrc). fold (merged cfg).
  unfold bind, get_self, get_heap, ret. rewrite Htok, Hhdr.
  destruct hs; try discriminate Hsc; reflexivity.
Qed.

(** X8: a config that is [None], a bool or an int raises [TypeError] from
  [config.update], before the engine is called and with the state
  untouched, whatever the client. *)
Theorem send_scalar_config path rc s :
  is_scalar rc = true ->
  _send path rc s = (Raise TypeError, s) /\
  send path rc s = (Raise TypeError, s) /\
  send_raw path rc s = (Raise TypeError, s).
Proof.
  intros Hsc. apply raise_through.
  unfold _send_request, bind, config_update, get_heap.
  destruct rc; try discriminate Hsc; reflexivity.
Qed.

(** X9: a body that is no object reference (a str, an int, a bool, a bare
  FileUpload, [None]) is passed to the engine's [request] as the JSON body
  as it is, with neither form data nor files; [_send] ends as that call
  ends. *)
Theorem send_body_not_dict path rc s cfg :
  as_dict (heap s) rc = Some cfg ->
  Dict.wf cfg ->
  (forall hs, Dict.get cfg "headers" = Some hs -> is_Some (as_dict (heap s) hs)) ->
  (forall l, body_of cfg <> PyRef l) ->
  exists r s',
    calls_engine path rc s r s' /\
    req_json r = body_of cfg /\ req_data r = None /\ req_files r = None.
Proof.
  intros Hrc Hwf Hty Hbody.
  destruct (send_request_total path rc s cfg Hrc Hwf Hty)
    as (config' & s' & E & _ & Hw & Hkeys & _).
  assert (Hb : default PyNone (Dict.get config' "body") = body_of cfg).
  { unfold body_of. rewrite Hkeys by discriminate. reflexivity. }
  pose proof (request_of_encoding (client s) path config' (heap s')) as Henc.
  cbv zeta in Henc. rewrite Hb in Henc.
  eexists _, s'. split; [apply calls_engine_intro; [exact E | exact Hw]|].
  destruct (body_of cfg) as [| | | | |l]; try exact Henc.
  exfalso. exact (Hbody l eq_refl).
Qed.

Lemma try_request_heap r s : heap (try_request r s).2 = heap s.
Proof.
  unfold try_request.
  destruct (request r (heap s) (world s)) as [[resp|e] w]; reflexivity.
Qed.

Lemma send_same_state path rc s :
  (send path rc s).2 = (_send path rc s).2 /\
  (send_raw path rc s).2 = (_send path rc s).2.
Proof.
  unfold send, send_raw, bind.
  destruct (_send path rc s) as [[response|e] s']; [|split; reflexivity].
  destruct (400 <=? status_code response)%Z; split; reflexivity.
Qed.

(** X10: for a config that is a dict whose headers, if any, are a dict, a
  dispatch changes no object of the heap but that headers dict: the config
  object, the body and everything else the caller holds are the same
  after [_send], [send] and [send_raw], whether they return or raise. *)
Theorem send_keeps_other_objects path rc s cfg l o :
  as_dict (heap s) rc = Some cfg ->
  Dict.wf cfg ->
  (forall hs, Dict.get cfg "headers" = Some hs -> is_Some (as_dict (heap s) hs)) ->
  heap s !! l = Some o ->
  Dict.get cfg "headers" <> Some (PyRef l) ->
  heap (_send path rc s).2 !! l = Some o /\
  heap (send path rc s).2 !! l = Some o /\
  heap (send_raw path rc s).2 !! l = Some o.
Proof.
  intros Hrc Hwf Hty Hl Hne.
  destruct (send_request_total path rc s cfg Hrc Hwf Hty)
    as (config' & s' & E & _ & _ & _ & Hframe).
  destruct (send_same_state path rc s) as [-> ->].
  rewrite (send_of_request _ _ _ _ _ E), try_request_heap.
  pose proof (Hframe l o Hl Hne). auto.
Qed.

(** *** Before and after the engine call *)

Lemma before_engine_ret {A} (a : A) : before_engine (ret a).
Proof. intros s r s' [= <- <-]. split; [reflexivity | discriminate]. Qed.

Lemma before_engine_raise {A} (e : exn) :
  is_python_error e = true -> before_engine (@raise _ _ A e).
Proof.
  intros He s r s' [= <- <-]. split; [reflexivity|]. intros e' [= <-]. exact He.
Qed.

Lemma before_engine_bind {A B} (m : M A) (k : A -> M B) :
  before_engine m -> (forall a, before_engine (k a)) -> before_engine (bind m k).
Proof.
  intros Hm Hk s r s'. unfold bind.
  destruct (m s) as [[a|e] s1] eqn:E1.
  - intros E2. destruct (Hm _ _ _ E1) as [Hw1 _].
    destruct (Hk a _ _ _ E2) as [Hw2 He2]. split; [congruence | exact He2].
  - intros [= <- <-]. destruct (Hm _ _ _ E1) as [Hw1 He1].
    split; [exact Hw1|]. intros e' [= <-]. apply He1. reflexivity.
Qed.

Lemma before_engine_get_self : before_engine get_self.
Proof. intros s r s' [= <- <-]. split; [reflexivity | discriminate]. Qed.

Lemma before_engine_get_heap : before_engine get_heap.
Proof. intros s r s' [= <- <-]. split; [reflexivity | discriminate]. Qed.

Lemma before_engine_alloc o : before_engine (alloc o).
Proof. intros s r s' [= <- <-]. split; [reflexivity | discriminate]. Qed.

Lemma before_engine_py_in k v : before_engine (py_in k v).
Proof.
  unfold py_in. apply before_engine_bind; [apply before_engine_get_heap|].
  intros h. destruct v as [| | | | |l];
    try (apply before_engine_raise; reflexivity); try apply before_engine_ret.
  destruct (h !! l) as [[d|]|];
    try (apply before_engine_raise; reflexivity); apply before_engine_ret.
Qed.

Lemma before_engine_config_update config rc :
  before_engine (config_update config rc).
Proof.
  unfold config_update. apply before_engine_bind; [apply before_engine_get_heap|].
  intros h. destruct rc as [| | |str|f|l];
    try (apply before_engine_raise; reflexivity).
  - destruct (String.eqb str "");
      [apply before_engine_ret | apply before_engine_raise; reflexivity].
  - destruct (h !! l) as [[d|]|];
      try (apply before_engine_raise; reflexivity); apply before_engine_ret.
Qed.

Lemma before_engine_py_update v e : before_engine (py_update v e).
Proof.
  unfold py_update. apply before_engine_bind; [apply before_engine_get_heap|].
  intros h. destruct v as [| | | | |l];
    try (apply before_engine_raise; reflexivity).
  destruct (h !! l) as [[d|]|];
    try (apply before_engine_raise; reflexivity).
  intros s r s' [= <- <-]. split; [reflexivity | discriminate].
Qed.

Lemma before_engine_send_request path rc : before_engine (_send_request path rc).
Proof.
  unfold _send_request.
  apply before_engine_bind; [apply before_engine_config_update | intros config].
  apply before_engine_bind; [apply before_engine_get_self | intros self].
  apply before_engine_bind.
  { destruct (token_truthy _); [|apply before_engine_ret].
    destruct (Dict.get config "headers"); [|apply before_engine_ret].
    apply before_engine_bind;
      [apply before_engine_py_in | intros b; apply before_engine_ret]. }
  intros inject. apply before_engine_bind.
  { destruct inject; [|apply before_engine_ret].
    apply before_engine_bind.
    - destruct (Dict.get config "headers"); [apply before_engine_ret|].
      apply before_engine_bind;
        [apply before_engine_alloc | intros l; apply before_engine_ret].
    - intros hs. apply before_engine_bind; [apply before_engine_py_update|].
      intros _. apply before_engine_ret. }
  intros config'.
  apply before_engine_bind;
    [apply before_engine_get_heap | intros h; apply before_engine_ret].
Qed.

(** X11: for every path and config, either the engine's [request] is
  called once, in the world as it was, and [_send] ends as that call
  ends; or [_send] raises an exception that is no ClientResponseError
  and leaves the world as it was.  No request is sent when the arguments
  are rejected, and none is sent twice. *)
Theorem send_engine_at_most_once path rc s :
  (exists r s', calls_engine path rc s r s') \/
  (exists e s',
     _send path rc s = (Raise e, s') /\
     world s' = world s /\
     forall c, e <> ClientResponseErr c).
Proof.
  destruct (_send_request path rc s) as [[r|e] s'] eqn:E;
    destruct (before_engine_send_request path rc s _ s' E) as [Hw He].
  - left. exists r, s'. apply calls_engine_intro; [exact E | exact Hw].
  - right. exists e, s'. split; [apply raise_through; exact E|].
    split; [exact Hw|]. intros c ->.
    specialize (He _ eq_refl). discriminate He.
Qed.

(** What [_send] raises: an exception of Python's own from before the
  engine call, or the wrapped exception of the engine. *)
Lemma send_raise_inv path rc s x s' :
  _send path rc s = (Raise x, s') ->
  is_python_error x = true \/ exists e, x = transport_error e.
Proof.
  unfold _send, bind.
  destruct (_send_request path rc s) as [[r|e0] s1] eqn:E.
  - unfold try_request.
    destruct (request r (heap s1) (world s1)) as [[resp|e] w];
      [discriminate|].
    intros [= <- _]. right. exists e. reflexivity.
  - intros [= <- _]. left.
    destruct (before_engine_send_request path rc s _ s1 E) as [_ He].
    apply He. reflexivity.
Qed.

(** X12: the only ClientResponseError [_send] raises is the one of a
  transport failure: it wraps an exception of the engine and has no url,
  status or data. *)
Theorem send_error_is_transport path rc s c s' :
  _send path rc s = (Raise (ClientResponseErr c), s') ->
  exists e, ClientResponseErr c = transport_error e /\
            original_error c = Some e /\
            cre_url c = None /\ cre_status c = None /\ cre_data c = None.
Proof.
  intros E. destruct (send_raise_inv _ _ _ _ _ E) as [He | (e & He)].
  - discriminate He.
  - exists e. injection He as ->. cbn. auto.
Qed.

(** X13: a ClientResponseError [send] raises has one of two shapes: that
  of a transport failure, which wraps the engine's exception and has no
  url, status or data, or that of an answer of the server, which has a
  url, data and a status of 400 or more and wraps nothing. *)
Theorem send_error_shapes path rc s c s' :
  send path rc s = (Raise (ClientResponseErr c), s') ->
  (exists e, original_error c = Some e /\
             cre_status c = None /\ cre_url c = None /\ cre_data c = None) \/
  (exists st, cre_status c = Some st /\ (400 <= st)%Z /\
              original_error c = None /\
              is_Some (cre_url c) /\ is_Some (cre_data c)).
Proof.
  unfold send, bind. destruct (_send path rc s) as [[response|e] s1] eqn:E.
  - destruct (400 <=? status_code response)%Z eqn:Est; [|discriminate].
    intros [= <- _]. right. exists (status_code response). cbn.
    apply Z.leb_le in Est. eauto.
  - intros [= -> ->].
    destruct (send_raise_inv _ _ _ _ _ E) as [He | (e & He)];
      [discriminate He|].
    injection He as ->. left. exists e. cbn. auto.
Qed.

(** X14: [send] and [send_raw] add no effect to [_send]: the state they
  leave is the state [_send] leaves; [send_raw] raises exactly what
  [_send] raises, and [send] raises at least that. *)
Theorem wrappers_add_no_effect path rc s :
  (send path rc s).2 = (_send path rc s).2 /\
  (send_raw path rc s).2 = (_send path rc s).2 /\
  (forall e, (send_raw path rc s).1 = Raise e <-> (_send path rc s).1 = Raise e) /\
  (forall e, (_send path rc s).1 = Raise e -> (send path rc s).1 = Raise e).
Proof.
  destruct (send_same_state path rc s) as [Hs Hr].
  split; [exact Hs|]. split; [exact Hr|].
  unfold send, send_raw, bind.
  destruct (_send path rc s) as [[response|e0] s1]; cbn.
  - split; [intros e; split; discriminate | intros e; discriminate].
  - split; [intros e; split; intros [= ->]; reflexivity|].
    intros e [= ->]. reflexivity.
Qed.

(** *** More on the cache of RecordServices *)

(** Without a dict for cache, [collection] raises at the membership test. *)
Lemma collection_no_cache a s :
  as_dict (heap s) (PyRef (record_service (client s))) = None ->
  collection a s = (Raise TypeError, s).
Proof.
  intros Hd. unfold collection, bind at 1. unfold get_self at 1.
  unfold bind at 1. unfold py_in, get_heap. unfold bind at 1.
  cbn in Hd. destruct (heap s !! record_service (client s)) as [[d|]|];
    [discriminate Hd | reflexivity | reflexivity].
Qed.

(** X15: on a client whose [record_service] is a dict, [collection]
  returns for every identifier, never raising [KeyError], and calling it
  again with the same identifier returns the same value and leaves the
  state as the first call left it. *)
Theorem collection_idempotent a s :
  cache_dict s ->
  exists v s',
    collection a s = (Ret v, s') /\ collection a s' = (Ret v, s').
Proof.
  intros [d Hd]. rewrite (collection_state a s d Hd).
  destruct (Dict.get d a) as [v|] eqn:Ea.
  - exists v, s. split; [reflexivity|]. rewrite (collection_state a s d Hd), Ea.
    reflexivity.
  - cbv zeta. eexists _, _. split; [reflexivity|].
    erewrite collection_state;
      [|cbn; rewrite lookup_insert_eq; reflexivity].
    rewrite dict_get_app_one, Ea, String.eqb_refl. reflexivity.
Qed.

(** X16: [collection] does not reach outside the cache: the world, the
  base URL, the language, the AuthStore, the timeout, the snake-case flag
  and the reference to the cache are as before, every object of the heap
  other than the cache dict is kept, and a call for an identifier the
  cache holds changes nothing at all. *)
Theorem collection_frame a s :
  world (collection a s).2 = world s /\
  base_url (client (collection a s).2) = base_url (client s) /\
  lang (client (collection a s).2) = lang (client s) /\
  auth_store (client (collection a s).2) = auth_store (client s) /\
  timeout (client (collection a s).2) = timeout (client s) /\
  auto_snake_case (client (collection a s).2) = auto_snake_case (client s) /\
  record_service (client (collection a s).2) = record_service (client s) /\
  heap_kept_but (record_service (client s)) s (collection a s).2 /\
  (Dict.mem (cache_of s) a = true -> (collection a s).2 = s).
Proof.
  unfold heap_kept_but.
  destruct (as_dict (heap s) (PyRef (record_service (client s)))) as [d|] eqn:Hd.
  - rewrite (collection_state a s d Hd), (cache_of_dict _ _ Hd). unfold Dict.mem.
    destruct (Dict.get d a) as [v|] eqn:Ea; cbn.
    + repeat split; auto.
    + repeat split; try discriminate.
      intros l o Hl Hne. rewrite lookup_insert_ne by congruence.
      rewrite lookup_insert_ne; [exact Hl|].
      intros Heq. symmetry in Heq. revert Heq. apply fresh_not_mapped with o.
      exact Hl.
  - rewrite (collection_no_cache a s Hd). cbn. repeat split; auto.
Qed.

Lemma collection_keys a s id :
  cache_dict s ->
  cache_dict (collection a s).2 /\
  (id ∈ Dict.keys (cache_of (collection a s).2) <->
   id ∈ Dict.keys (cache_of s) \/ a = id).
Proof.
  intros [d Hd]. rewrite (collection_state a s d Hd), (cache_of_dict _ _ Hd).
  destruct (Dict.get d a) as [v|] eqn:Ea.
  - cbn [snd]. split; [exists d; exact Hd|]. rewrite (cache_of_dict _ _ Hd).
    split; [auto|]. intros [Hin | <-]; [exact Hin|].
    destruct (decide (a ∈ Dict.keys d)) as [Hin|Hnin]; [exact Hin|].
    apply dict_get_None in Hnin. congruence.
  - cbv zeta. cbn [snd].
    set (s' := mkState _ _ _).
    assert (Hd' : as_dict (heap s') (PyRef (record_service (client s'))) =
                  Some (d ++ [(a, PyRef (fresh (used s)))])%list)
      by (cbn; rewrite lookup_insert_eq; reflexivity).
    split; [eexists; exact Hd'|]. rewrite (cache_of_dict _ _ Hd').
    unfold Dict.keys. rewrite fmap_app, elem_of_app. cbn.
    rewrite list_elem_of_singleton. split.
    + intros [Hin | ->]; auto.
    + intros [Hin | ->]; auto.
Qed.

(** X17: after any sequence of [collection] calls on a client whose
  [record_service] is a dict, the identifiers the cache holds are those
  it held before and those [collection] was called with, and no
  others. *)
Theorem cache_keys cs s id :
  cache_dict s ->
  Forall is_collection cs ->
  (id ∈ Dict.keys (cache_of (run cs s).2) <->
   id ∈ Dict.keys (cache_of s) \/ Collection id ∈ cs).
Proof.
  revert s. induction cs as [|c cs IH]; intros s Hs Hcs.
  - cbn. rewrite elem_of_nil. tauto.
  - apply Forall_cons in Hcs as [[a ->] Hcs].
    rewrite run_cons. cbn [snd]. destruct (collection_keys a s id Hs) as [Hs1 Hk].
    assert (Hrc : (run_call (Collection a) s).2 = (collection a s).2).
    { cbn [run_call]. destruct (collection a s) as [[v|e] s1]; reflexivity. }
    rewrite Hrc, (IH _ Hs1 Hcs), Hk, elem_of_cons. split.
    + intros [[Hin | ->] | Hin]; auto.
    + intros [Hin | [[= ->] | Hin]]; auto.
Qed.

(** X19: on a sound cache, a reference that a [collection] call returned
  is, at the end of any sequence of calls, a RecordService bound to the
  identifier that call was given; and for every identifier but
  "Authorization" the value returned is such a reference. *)
Theorem collection_bound cs s i a v :
  cache_sound s ->
  cs !! i = Some (Collection a) ->
  (run cs s).1 !! i = Some (Some v) ->
  (forall l, v = PyRef l ->
             heap (run cs s).2 !! l = Some (ORecordService a)) /\
  (a <> "Authorization" -> exists l, v = PyRef l).
Proof.
  intros Hs Hi Hv.
  destruct (run_cache cs s Hs) as ([_ Hs'] & _ & Hcs).
  destruct (Hcs i a Hi) as (v' & Hv' & Hca).
  assert (v' = v) as -> by congruence.
  destruct (Hs' _ _ Hca) as [(l0 & -> & Hl0) | [-> Hn]].
  - split; [intros l [= <-]; exact Hl0 | intros _; eauto].
  - split; [intros l ->; exfalso; exact (Hn l eq_refl) | intros Hne; contradiction].
Qed.

(** X20: whatever the path and the config, and whether the call returns or
  raises, [_send], [send] and [send_raw] leave every attribute of the
  client as it was (base URL, AuthStore, timeout, the reference to the
  cache), keep every RecordService object, and remove or replace no
  entry of the cache. *)
Theorem dispatch_keeps_client path rc s :
  (frame s (_send path rc s).2 /\ cache_grows s (_send path rc s).2) /\
  (frame s (send path rc s).2 /\ cache_grows s (send path rc s).2) /\
  (frame s (send_raw path rc s).2 /\ cache_grows s (send_raw path rc s).2).
Proof.
  destruct (send_same_state path rc s) as [-> ->].
  pose proof (send_step_ path rc s) as Hstep.
  assert (Hk : frame s (_send path rc s).2 /\ cache_grows s (_send path rc s).2).
  { split.
    - split; [apply Hstep|]. intros l id Hl.
      exact (dispatch_step_service _ _ _ _ Hstep Hl).
    - intros id v. unfold cache_of. destruct Hstep as [Hc Hh]. rewrite Hc.
      cbn [as_dict].
      destruct (heap s !! record_service (client s)) as [[d|]|] eqn:El;
        try discriminate.
      destruct (Hh _ _ El) as (o' & -> & [-> | (d0 & x & [= <-] & _ & _ & ->)]).
      + auto.
      + cbn. intros Hv. rewrite dict_get_app_one, Hv. reflexivity. }
  auto.
Qed.

(** X21: when [send] returns, the engine returned a response with a status
  below 400, and the value returned is the decoded body of that response,
  or [None] when the body does not decode. *)
Theorem send_returns path rc s j s' :
  send path rc s = (Ret j, s') ->
  exists response,
    _send path rc s = (Ret response, s') /\
    (status_code response < 400)%Z /\
    j = default JNone (response_json response).
Proof.
  unfold send, bind. destruct (_send path rc s) as [[response|e] s1];
    [|discriminate].
  destruct (400 <=? status_code response)%Z eqn:Est; [discriminate|].
  intros [= <- <-]. exists response. apply Z.leb_gt in Est.
  split; [reflexivity|]. split; [exact Est|].
  destruct (response_json response); reflexivity.
Qed.

End MoreFacts.

(** ** The theorems at concrete inputs *)

Section Examples.
#[local] Existing Instance Demo.files.
#[local] Existing Instance Demo.engine.

Example of_int_404 : Str.of_int 404 = "404".
Proof. reflexivity. Qed.

(** A logged-in client, headers without Authorization (config 1) and with
  the caller's own (config 4). *)
Lemma send_authorization_header_witness :
  (exists r s' d',
     calls_engine "/x" (PyRef 1) Demo.logged_in r s' /\
     as_dict (heap s') (req_headers r) = Some d' /\
     Dict.get d' "Authorization" = Some (PyStr "tok")) /\
  (exists r,
     calls_engine "/x" (PyRef 4) Demo.logged_in r Demo.logged_in /\
     req_headers r = PyRef 5 /\
     as_dict (heap Demo.logged_in) (req_headers r) =
       Some [("Authorization", PyStr "mine")]).
Proof.
  split.
  - refine (proj1 (send_authorization_header "/x" (PyRef 1) Demo.logged_in
                     [("headers", PyRef 2); ("body", PyRef 3)] _ _)
                  "tok" _ _ _).
    + vm_compute. reflexivity.
    + unfold Dict.wf. apply (bool_decide_unpack _). vm_compute. exact I.
    + reflexivity.
    + discriminate.
    + right. exists (PyRef 2), [("X", PyStr "1")].
      split; [reflexivity|]. split; vm_compute; reflexivity.
  - refine (proj2 (send_authorization_header "/x" (PyRef 4) Demo.logged_in
                     [("headers", PyRef 5)] _ _)
                  (PyRef 5) [("Authorization", PyStr "mine")] (PyStr "mine") _ _ _).
    + vm_compute. reflexivity.
    + unfold Dict.wf. apply (bool_decide_unpack _). vm_compute. exact I.
    + reflexivity.
    + vm_compute. reflexivity.
    + reflexivity.
Defined.

(** The empty token: the caller's headers (object 2) go out as they are. *)
Lemma send_without_token_witness :
  exists r,
    _send "/x" (PyRef 1) Demo.empty_token = try_request r Demo.empty_token /\
    req_headers r = PyRef 2.
Proof.
  apply (send_without_token "/x" (PyRef 1) Demo.empty_token
           [("headers", PyRef 2); ("body", PyRef 3)]).
  - vm_compute. reflexivity.
  - unfold Dict.wf. apply (bool_decide_unpack _). vm_compute. exact I.
  - right. reflexivity.
Defined.

(** Config 1, a body with two plain fields and one file, and config 7, a
  body with one plain field. *)
Lemma send_encoding_witness :
  (exists r s',
     calls_engine "/x" (PyRef 1) Demo.logged_in r s' /\
     (forall items,
        as_dict (heap Demo.logged_in) (PyRef 3) = Some items ->
        Dict.wf items ->
        as_dict (heap s') (PyRef 3) = Some items /\
        if has_file items
        then req_json r = PyNone /\
             req_data r = Some (plain_fields items) /\
             req_files r = Some (file_parts items)
        else req_json r = PyRef 3 /\ req_data r = None /\ req_files r = None) /\
     (PyRef 3 = PyNone ->
      req_json r = PyNone /\ req_data r = None /\ req_files r = None)) /\
  (exists r s',
     calls_engine "/x" (PyRef 7) Demo.logged_in r s' /\
     (forall items,
        as_dict (heap Demo.logged_in) (PyRef 8) = Some items ->
        Dict.wf items ->
        as_dict (heap s') (PyRef 8) = Some items /\
        if has_file items
        then req_json r = PyNone /\
             req_data r = Some (plain_fields items) /\
             req_files r = Some (file_parts items)
        else req_json r = PyRef 8 /\ req_data r = None /\ req_files r = None) /\
     (PyRef 8 = PyNone ->
      req_json r = PyNone /\ req_data r = None /\ req_files r = None)).
Proof.
  split.
  - apply (send_encoding "/x" (PyRef 1) Demo.logged_in
             [("headers", PyRef 2); ("body", PyRef 3)]).
    + vm_compute. reflexivity.
    + unfold Dict.wf. apply (bool_decide_unpack _). vm_compute. exact I.
    + intros hs [= <-]. split; [eexists; vm_compute; reflexivity | discriminate].
    + intros f k. discriminate.
  - apply (send_encoding "/x" (PyRef 7) Demo.logged_in
             [("method", PyStr "POST"); ("body", PyRef 8)]).
    + vm_compute. reflexivity.
    + unfold Dict.wf. apply (bool_decide_unpack _). vm_compute. exact I.
    + intros hs Hhs. discriminate Hhs.
    + intros f k. discriminate.
Defined.

(** A 404 with the body [{"message":"not found"}]. *)
Lemma send_status_witness :
  exists e,
    send "/missing" (PyRef 6) Demo.anonymous =
      (Raise (ClientResponseErr e), (_send "/missing" (PyRef 6) Demo.anonymous).2) /\
    message e = "Response error. Status code:404" /\
    cre_url e = Some "http://h/missing" /\
    cre_status e = Some 404%Z /\
    cre_data e = Some (JDict [("message", JStr "not found")]).
Proof.
  destruct (proj1 (send_status "/missing" (PyRef 6) Demo.anonymous
                     (mkResponse 404 "http://h/missing" Demo.body_not_found)
                     (_send "/missing" (PyRef 6) Demo.anonymous).2
                     ltac:(vm_compute; reflexivity))
                  ltac:(vm_compute; discriminate))
    as (e & Hs & Hm & Hu & Hst & _ & Hd & _).
  exists e. split; [exact Hs|]. split; [exact Hm|]. split; [exact Hu|].
  split; [exact Hst|]. apply Hd. reflexivity.
Defined.

(** A 200 with an HTML body. *)
Lemma send_undecodable_witness :
  send "/page" (PyRef 6) Demo.anonymous =
    (Ret JNone, (_send "/page" (PyRef 6) Demo.anonymous).2).
Proof.
  refine (proj1 (send_undecodable "/page" (PyRef 6) Demo.anonymous
                   (mkResponse 200 "http://h/page" "<html>")
                   (_send "/page" (PyRef 6) Demo.anonymous).2 _ _) _).
  - vm_compute. reflexivity.
  - reflexivity.
  - vm_compute. reflexivity.
Defined.

(** A refused connection. *)
Lemma send_transport_failure_witness :
  _send "/down" (PyRef 6) Demo.anonymous =
    (Raise (transport_error ("connection refused" : @EngineError _ Demo.engine)),
     mkState (client Demo.anonymous) (heap Demo.anonymous)
             ([Demo.bare_request "/down"] : @World _ Demo.engine)).
Proof.
  refine (proj1 (send_transport_failure "/down" (PyRef 6) Demo.anonymous
                   (Demo.bare_request "/down") Demo.anonymous
                   "connection refused" [Demo.bare_request "/down"] _ _)).
  - vm_compute. reflexivity.
  - vm_compute. reflexivity.
Defined.

(** The bytes of a 404 response. *)
Lemma send_raw_content_witness :
  send_raw "/missing" (PyRef 6) Demo.anonymous =
    (Ret Demo.body_not_found,
     mkState (client Demo.anonymous) (heap Demo.anonymous)
             ([Demo.bare_request "/missing"] : @World _ Demo.engine)).
Proof.
  refine (send_raw_content "/missing" (PyRef 6) Demo.anonymous
            (Demo.bare_request "/missing") Demo.anonymous
            (mkResponse 404 "http://h/missing" Demo.body_not_found)
            [Demo.bare_request "/missing"] _ _).
  - vm_compute. reflexivity.
  - vm_compute. reflexivity.
Defined.


(** C2, at a logged-in client and a config that gives one dict as headers
  and as body: the body the caller gave has one entry that is no
  FileUpload, "title"; the engine receives one request, and its form data
  hold a second field, "Authorization", that is no entry of that body. *)
Theorem send_aliased_body_form_data :
  as_dict (heap Demo.logged_in_aliased) (PyRef 2) =
    Some [("title", PyStr "t"); ("doc", PyFile ("bytes" : @FileUpload Demo.files))] /\
  plain_fields [("title", PyStr "t"); ("doc", PyFile ("bytes" : @FileUpload Demo.files))] =
    [("title", PyStr "t")] /\
  (req_data <$> (world (_send "/x" (PyRef 1) Demo.logged_in_aliased).2
                 : list (@Request Demo.files))) =
    [Some [("title", PyStr "t"); ("Authorization", PyStr "tok")]] /\
  (req_files <$> (world (_send "/x" (PyRef 1) Demo.logged_in_aliased).2
                  : list (@Request Demo.files))) =
    [Some [("doc", "bytes")]].
Proof. vm_compute. repeat split; reflexivity. Qed.

(** C8, at a logged-in client and the caller's config 1: the caller's
  headers dict (object 2) holds one entry before the call and two after
  it, while the client and the config object itself are as before. *)
Theorem send_mutates_caller_headers :
  heap Demo.logged_in !! 2%positive = Some (ODict [("X", PyStr "1")]) /\
  heap (_send "/x" (PyRef 1) Demo.logged_in).2 !! 2%positive =
    Some (ODict [("X", PyStr "1"); ("Authorization", PyStr "tok")]) /\
  heap (_send "/x" (PyRef 1) Demo.logged_in).2 !! 1%positive =
    heap Demo.logged_in !! 1%positive /\
  client (_send "/x" (PyRef 1) Demo.logged_in).2 = client Demo.logged_in.
Proof. vm_compute. repeat split; reflexivity. Qed.


(** Base "http://h", paths "/a" and "a". *)
Lemma build_url_root_witness :
  Str.endswith (build_url (Demo.client_at "http://h" None) "") "/" = true /\
  build_url (Demo.client_at "http://h" None) "/a" =
    build_url (Demo.client_at "http://h" None) "" ++ "a" /\
  build_url (Demo.client_at "http://h" None) "a" =
    build_url (Demo.client_at "http://h" None) "" ++ "a".
Proof.
  destruct (build_url_root (Demo.client_at "http://h" None) "a") as (H1 & H2 & H3).
  split; [exact H1|]. split; [exact H2|]. apply H3. reflexivity.
Defined.

(** Bases "http://h" and "http://h/". *)
Lemma build_url_normal_base_witness :
  build_url (Demo.client_at "http://h/" None) "a" =
  build_url (Demo.client_at "http://h" None) "a".
Proof.
  apply (build_url_normal_base (Demo.client_at "http://h" None)
           (Demo.client_at "http://h/" None) "a").
  reflexivity.
Defined.

(** A config with a method given as [None], params and no headers. *)
Lemma send_request_fields_witness :
  exists r s',
    calls_engine "/x" (PyRef 2) Demo.logged_in_more r s' /\
    req_url r = "http://h/x" /\
    req_timeout r = 120%Z /\
    req_params r = PyRef 3 /\
    req_method r = PyNone.
Proof.
  apply (send_request_fields "/x" (PyRef 2) Demo.logged_in_more
           [("body", PyStr "raw text"); ("method", PyNone); ("params", PyRef 3)]).
  - vm_compute. reflexivity.
  - unfold Dict.wf. apply (bool_decide_unpack _). vm_compute. exact I.
  - intros hs Hhs. discriminate Hhs.
Defined.

(** Config 1 of the logged-in client: headers with the entry "X". *)
Lemma send_headers_appended_witness :
  exists r s',
    calls_engine "/x" (PyRef 1) Demo.logged_in r s' /\
    as_dict (heap s') (req_headers r) =
      Some [("X", PyStr "1"); ("Authorization", PyStr "tok")].
Proof.
  apply (send_headers_appended "/x" (PyRef 1) Demo.logged_in
           [("headers", PyRef 2); ("body", PyRef 3)] (PyRef 2)
           [("X", PyStr "1")] "tok").
  - vm_compute. reflexivity.
  - unfold Dict.wf. apply (bool_decide_unpack _). vm_compute. exact I.
  - reflexivity.
  - discriminate.
  - reflexivity.
  - vm_compute. reflexivity.
  - reflexivity.
Defined.

(** The empty config of the logged-in client. *)
Lemma send_headers_new_witness :
  exists r s' l,
    calls_engine "/x" (PyRef 6) Demo.logged_in r s' /\
    req_headers r = PyRef l /\
    (l ∉ used Demo.logged_in) /\
    heap Demo.logged_in !! l = None /\
    (forall l0 d k, heap Demo.logged_in !! l0 = Some (ODict d) ->
                    Dict.get d k <> Some (PyRef l)) /\
    heap s' = <[l := ODict [("Authorization", PyStr "tok")]]> (heap Demo.logged_in) /\
    client s' = client Demo.logged_in.
Proof.
  apply (send_headers_new "/x" (PyRef 6) Demo.logged_in [] "tok").
  - vm_compute. reflexivity.
  - apply NoDup_nil_2.
  - reflexivity.
  - discriminate.
  - reflexivity.
Defined.

(** Headers given as [None] to a logged-in client. *)
Lemma send_scalar_headers_witness :
  _send "/x" (PyRef 1) Demo.logged_in_more = (Raise TypeError, Demo.logged_in_more) /\
  send "/x" (PyRef 1) Demo.logged_in_more = (Raise TypeError, Demo.logged_in_more) /\
  send_raw "/x" (PyRef 1) Demo.logged_in_more = (Raise TypeError, Demo.logged_in_more).
Proof.
  apply (send_scalar_headers "/x" (PyRef 1) Demo.logged_in_more
           [("headers", PyNone)] PyNone).
  - vm_compute. reflexivity.
  - unfold Dict.wf. apply (bool_decide_unpack _). vm_compute. exact I.
  - reflexivity.
  - reflexivity.
  - reflexivity.
Defined.

(** [None] given as config. *)
Lemma send_scalar_config_witness :
  _send "/x" PyNone Demo.anonymous = (Raise TypeError, Demo.anonymous) /\
  send "/x" PyNone Demo.anonymous = (Raise TypeError, Demo.anonymous) /\
  send_raw "/x" PyNone Demo.anonymous = (Raise TypeError, Demo.anonymous).
Proof.
  apply (send_scalar_config "/x" PyNone Demo.anonymous). reflexivity.
Defined.

(** A text body. *)
Lemma send_body_not_dict_witness :
  exists r s',
    calls_engine "/x" (PyRef 2) Demo.logged_in_more r s' /\
    req_json r = PyStr "raw text" /\ req_data r = None /\ req_files r = None.
Proof.
  apply (send_body_not_dict "/x" (PyRef 2) Demo.logged_in_more
           [("body", PyStr "raw text"); ("method", PyNone); ("params", PyRef 3)]).
  - vm_compute. reflexivity.
  - unfold Dict.wf. apply (bool_decide_unpack _). vm_compute. exact I.
  - intros hs Hhs. discriminate Hhs.
  - intros l Hl. discriminate Hl.
Defined.

(** The config object (1) of the logged-in client's dispatch is kept. *)
Lemma send_keeps_other_objects_witness :
  heap (_send "/x" (PyRef 1) Demo.logged_in).2 !! 1%positive =
    Some (ODict [("headers", PyRef 2); ("body", PyRef 3)]) /\
  heap (send "/x" (PyRef 1) Demo.logged_in).2 !! 1%positive =
    Some (ODict [("headers", PyRef 2); ("body", PyRef 3)]) /\
  heap (send_raw "/x" (PyRef 1) Demo.logged_in).2 !! 1%positive =
    Some (ODict [("headers", PyRef 2); ("body", PyRef 3)]).
Proof.
  apply (send_keeps_other_objects "/x" (PyRef 1) Demo.logged_in
           [("headers", PyRef 2); ("body", PyRef 3)]).
  - vm_compute. reflexivity.
  - unfold Dict.wf. apply (bool_decide_unpack _). vm_compute. exact I.
  - intros hs [= <-]. eexists. vm_compute. reflexivity.
  - vm_compute. reflexivity.
  - discriminate.
Defined.

(** The error of a refused connection. *)
Lemma send_error_is_transport_witness :
  exists e : @EngineError _ Demo.engine,
    ClientResponseErr
      (mkClientResponseError
         "General request error. Original error: connection refused"
         None None None (Some ("connection refused" : @EngineError _ Demo.engine)))
    = transport_error e /\
    Some ("connection refused" : @EngineError _ Demo.engine) = Some e /\
    @None string = None /\ @None Z = None /\ @None pyjson = None.
Proof.
  apply (send_error_is_transport "/down" (PyRef 6) Demo.anonymous
           (mkClientResponseError
              "General request error. Original error: connection refused"
              None None None (Some ("connection refused" : @EngineError _ Demo.engine)))
           (_send "/down" (PyRef 6) Demo.anonymous).2).
  vm_compute. reflexivity.
Defined.

(** The error of a 404. *)
Lemma send_error_shapes_witness :
  (exists e : @EngineError _ Demo.engine,
     @None (@EngineError _ Demo.engine) = Some e /\
     Some 404%Z = None /\ Some "http://h/missing" = None /\
     Some (JDict [("message", JStr "not found")]) = None) \/
  (exists st, Some 404%Z = Some st /\ (400 <= st)%Z /\
              @None (@EngineError _ Demo.engine) = None /\
              is_Some (Some "http://h/missing") /\
              is_Some (Some (JDict [("message", JStr "not found")]))).
Proof.
  apply (send_error_shapes "/missing" (PyRef 6) Demo.anonymous
           (mkClientResponseError "Response error. Status code:404"
              (Some "http://h/missing") (Some 404%Z)
              (Some (JDict [("message", JStr "not found")])) None)
           (send "/missing" (PyRef 6) Demo.anonymous).2).
  vm_compute. reflexivity.
Defined.

(** "posts" asked for twice in a row. *)
Lemma collection_idempotent_witness :
  exists v s',
    collection "posts" Demo.logged_in = (Ret v, s') /\
    collection "posts" s' = (Ret v, s').
Proof.
  apply (collection_idempotent "posts" Demo.logged_in).
  eexists. vm_compute. reflexivity.
Defined.

(** "posts" and "comments", and "users" that nobody asked for. *)
Lemma cache_keys_witness :
  ("posts" ∈ Dict.keys
     (cache_of (run [Collection "posts"; Collection "comments"] Demo.logged_in).2) <->
   "posts" ∈ Dict.keys (cache_of Demo.logged_in) \/
   Collection "posts" ∈ [Collection "posts"; Collection "comments"]) /\
  ("users" ∈ Dict.keys
     (cache_of (run [Collection "posts"; Collection "comments"] Demo.logged_in).2) <->
   "users" ∈ Dict.keys (cache_of Demo.logged_in) \/
   Collection "users" ∈ [Collection "posts"; Collection "comments"]).
Proof.
  assert (Hd : cache_dict Demo.logged_in) by (eexists; vm_compute; reflexivity).
  assert (Hc : Forall is_collection [Collection "posts"; Collection "comments"])
    by (repeat constructor; eexists; reflexivity).
  split.
  - exact (cache_keys [Collection "posts"; Collection "comments"]
             Demo.logged_in "posts" Hd Hc).
  - exact (cache_keys [Collection "posts"; Collection "comments"]
             Demo.logged_in "users" Hd Hc).
Defined.

(** The third call of the demo returned object 10, bound to "posts". *)
Lemma collection_bound_witness :
  (forall l, PyRef 10 = PyRef l ->
             heap (run Demo.calls Demo.logged_in).2 !! l =
               Some (ORecordService "posts")) /\
  ("posts" <> "Authorization" -> exists l, @PyRef Demo.files 10 = PyRef l).
Proof.
  apply (collection_bound Demo.calls Demo.logged_in 2 "posts" (PyRef 10)).
  - apply cache_sound_init. vm_compute. reflexivity.
  - reflexivity.
  - vm_compute. reflexivity.
Defined.

(** A 200 with the body [{"id":"1"}]. *)
Lemma send_returns_witness :
  exists response,
    _send "/x" (PyRef 6) Demo.anonymous =
      (Ret response, (send "/x" (PyRef 6) Demo.anonymous).2) /\
    (status_code response < 400)%Z /\
    JDict [("id", JStr "1")] = default JNone (response_json response).
Proof.
  apply (send_returns "/x" (PyRef 6) Demo.anonymous
           (JDict [("id", JStr "1")])
           (send "/x" (PyRef 6) Demo.anonymous).2).
  vm_compute. reflexivity.
Defined.

End Examples.
